(** * CHORUS: verdict extraction and three-model consensus

    A shallow embedding of [main.py] (the verdict extractor, the consensus
    resolver, the three model adapters and the [/analyze-all] handler), of
    [store_results] from [database.py] and of [analyze_prompt] from [ui.py],
    followed by the properties the specification states about them.

    Python [str] values are embedded as [string]; the embedding covers text
    made of ASCII code points (0..127), on which [str.upper] only moves
    [a-z] and [str.strip] removes the ten ASCII whitespace characters.
    Python [bool] is [bool], [list] is [list], a value that may be [None]
    is an [option], and the dictionaries with a fixed set of keys are
    records with one field per key. *)

From Stdlib Require Import String Ascii List Bool Arith Lia Permutation.
From Stdlib Require Import DecimalString Sorted.
Import ListNotations.

Local Open Scope string_scope.
Local Open Scope list_scope.

(** ** Python string primitives *)

Module PyStr.

(** The line feed, ['\n']. *)
Definition LF : ascii := ascii_of_nat 10.

(** [c.isspace()] on ASCII: TAB, LF, VT, FF, CR, FS, GS, RS, US, SPACE. *)
Definition isspace (c : ascii) : bool :=
  let n := nat_of_ascii c in
  (((9 <=? n) && (n <=? 13)) || ((28 <=? n) && (n <=? 32)))%nat.

(** [c.upper()] on ASCII: [a-z] goes to [A-Z], all else stays. *)
Definition upper_char (c : ascii) : ascii :=
  let n := nat_of_ascii c in
  if ((97 <=? n) && (n <=? 122))%nat then ascii_of_nat (n - 32) else c.

(** [s.upper()] *)
Fixpoint upper (s : string) : string :=
  match s with
  | EmptyString => EmptyString
  | String c s' => String (upper_char c) (upper s')
  end.

Definition is_empty (s : string) : bool :=
  match s with EmptyString => true | String _ _ => false end.

(** [s.lstrip()] *)
Fixpoint lstrip (s : string) : string :=
  match s with
  | EmptyString => EmptyString
  | String c s' => if isspace c then lstrip s' else s
  end.

(** [s.rstrip()]: a character goes when it is whitespace and all that
    follows it has gone. *)
Fixpoint rstrip (s : string) : string :=
  match s with
  | EmptyString => EmptyString
  | String c s' =>
      let r := rstrip s' in
      if isspace c && is_empty r then EmptyString else String c r
  end.

(** [s.strip()] *)
Definition strip (s : string) : string := rstrip (lstrip s).

(** [s.split(sep)] for a one-character separator; the result always has
    at least one piece ([''.split(sep) == ['']]). *)
Fixpoint split (sep : ascii) (s : string) : list string :=
  match s with
  | EmptyString => [EmptyString]
  | String c s' =>
      if Ascii.eqb c sep then EmptyString :: split sep s'
      else match split sep s' with
           | [] => [String c EmptyString]
           | piece :: pieces => String c piece :: pieces
           end
  end.

(** [p in s] *)
Fixpoint contains (p s : string) : bool :=
  String.prefix p s ||
  match s with
  | EmptyString => false
  | String _ s' => contains p s'
  end.

(** [s[:n]] *)
Fixpoint slice_to (n : nat) (s : string) : string :=
  match n, s with
  | S n', String c s' => String c (slice_to n' s')
  | _, _ => EmptyString
  end.

(** [sep.join(pieces)] *)
Definition join (sep : string) (pieces : list string) : string :=
  String.concat sep pieces.

(** [str(n)] for a natural number. *)
Definition str_of_nat (n : nat) : string :=
  NilZero.string_of_uint (Nat.to_uint n).

End PyStr.

Import PyStr.

(** ** Request and response models *)

(** [class ModelResponse(BaseModel)], and the dictionary [.dict()] makes of
    it (same keys, same values). *)
Record ModelResponse : Type := mkModelResponse {
  model_name : string;
  safe : bool;
  concerns : list string;
  reasoning : string
}.

(** The dictionary [evaluate_consensus] returns. *)
Record Consensus : Type := mkConsensus {
  verdict : string;
  confidence : string;
  consensus_reasoning : string;
  flagged_by : list string
}.

(** [class AnalysisRequest(BaseModel)]: any [str] is a valid [content]. *)
Record AnalysisRequest : Type := mkAnalysisRequest {
  content : string
}.

(** The dictionary [analyze_all_models] returns. *)
Record Bundle : Type := mkBundle {
  bundle_content : string;
  claude : ModelResponse;
  gpt5 : ModelResponse;
  llama : ModelResponse;
  consensus : Consensus;
  timestamp : string
}.

(** ** Helper functions of [main.py] *)

Definition first_line (response_text : string) : string :=
  upper (hd EmptyString (split LF (strip response_text))).

Definition extract_verdict (response_text : string) : string :=
  let first_line := first_line response_text in
  if contains "VERDICT: SAFE" first_line then "safe"
  else if contains "VERDICT: UNSAFE" first_line then "unsafe"
  else "unknown".

(** [sum([claude_result['safe'], gpt5_result['safe'], llama_result['safe']])] *)
Definition safe_votes
    (claude_result gpt5_result llama_result : ModelResponse) : nat :=
  Nat.b2n (safe claude_result) + Nat.b2n (safe gpt5_result)
  + Nat.b2n (safe llama_result).

Definition evaluate_consensus
    (claude_result gpt5_result llama_result : ModelResponse) : Consensus :=
  let safe_votes := safe_votes claude_result gpt5_result llama_result in
  if (safe_votes =? 3)%nat then
    {| verdict := "SAFE";
       confidence := "high";
       consensus_reasoning := "All three models flagged this output as safe.";
       flagged_by := [] |}
  else if (safe_votes =? 0)%nat then
    {| verdict := "UNSAFE";
       confidence := "high";
       consensus_reasoning := "All three models flagged this output as unsafe";
       flagged_by := ["Claude"; "GPT-5"; "Llama"] |}
  else
    let flagged_by := [] in
    let flagged_by :=
      if negb (safe claude_result) then flagged_by ++ ["Claude"] else flagged_by in
    let flagged_by :=
      if negb (safe gpt5_result) then flagged_by ++ ["GPT-5"] else flagged_by in
    let flagged_by :=
      if negb (safe llama_result) then flagged_by ++ ["Llama"] else flagged_by in
    {| verdict := "REVIEW_REQUIRED";
       confidence := "uncertain";
       consensus_reasoning :=
         str_of_nat (List.length flagged_by) ++ " of 3 models flagged concerns";
       flagged_by := flagged_by |}.

(** ** The outside world: providers, clock and database *)

(** The exceptions the code tells apart: [ui.py] has a handler for
    [requests.exceptions.ConnectionError] and one for every other
    [Exception]; the adapters catch [Exception], which covers both. *)
Inductive exn : Type :=
| ConnectionError (msg : string)
| Exception (msg : string).

(** [str(e)] *)
Definition str_exn (e : exn) : string :=
  match e with
  | ConnectionError msg => msg
  | Exception msg => msg
  end.

(** The three module-level provider clients. *)
Inductive client : Type :=
| claude_client
| openai_client
| together_client.

(** One row of the table [test_results] (without the autoincrement id). *)
Record Row : Type := mkRow {
  row_prompt : string;
  row_timestamp : string;
  claude_safe : nat;
  claude_reasoning : string;
  gpt5_safe : nat;
  gpt5_reasoning : string;
  llama_safe : nat;
  llama_reasoning : string;
  consensus_verdict : string;
  consensus_confidence : string;
  row_flagged_by : string
}.

(** What the program cannot decide itself.  The first three fields are the
    outcomes of the bodies of the adapters' [try] blocks on a content: the
    remote call with the shared system prompt and the reading of the reply
    out of its result, which binds [response_text] or raises.  For Claude
    the value bound is the [text] of the first content block, a [str]; for
    GPT and Llama it is [message.content], which is a [str] or [None].
    [isoformat n] is what [datetime.now().isoformat()] gives at the [n]-th
    reading of the clock.  [execute row] is the outcome of connecting,
    inserting [row] and committing: [None] when it goes through, the
    exception otherwise.  [close_and_print prompt] is the outcome of what
    [store_results] does after the commit, [conn.close()] and the [print]
    of the prompt. *)
Record Env : Type := mkEnv {
  messages_create : string -> string + exn;
  openai_create : string -> option string + exn;
  together_create : string -> option string + exn;
  isoformat : nat -> string;
  execute : Row -> option exn;
  close_and_print : string -> option exn
}.

(** The outcome of the [try] block of the adapter that calls client [c]:
    the value bound to [response_text] ([None] is Python's [None]) or the
    exception raised. *)
Definition create (env : Env) (c : client) (content : string)
  : option string + exn :=
  match c with
  | claude_client =>
      match messages_create env content with
      | inl text => inl (Some text)
      | inr e => inr e
      end
  | openai_client => openai_create env content
  | together_client => together_create env content
  end.

(** The state the program acts on: the provider requests sent so far (oldest
    first), the rows of the table, and the number of clock readings. *)
Record World : Type := mkWorld {
  requests_sent : list (client * string);
  test_results : list Row;
  clock : nat
}.

(** ** Computations: state passing with exceptions *)

Inductive outcome (A : Type) : Type :=
| Return (a : A)
| Raise (e : exn).

Arguments Return {A} a.
Arguments Raise {A} e.

Definition M (A : Type) : Type := World -> outcome A * World.

Definition ret {A : Type} (a : A) : M A := fun w => (Return a, w).

Definition bind {A B : Type} (m : M A) (k : A -> M B) : M B :=
  fun w =>
    match m w with
    | (Return a, w') => k a w'
    | (Raise e, w') => (Raise e, w')
    end.

(** [try: x = m / except Exception as e: ...]: the exception, if any, is
    handed to the continuation as a value. *)
Definition try_except {A : Type} (m : M A) : M (A + exn) :=
  fun w =>
    match m w with
    | (Return a, w') => (Return (inl a), w')
    | (Raise e, w') => (Return (inr e), w')
    end.

Definition raise {A : Type} (e : exn) : M A := fun w => (Raise e, w).

(** The [AttributeError] of [None.strip()], the first thing
    [extract_verdict] does with its argument. *)
Definition attribute_error : exn :=
  Exception "'NoneType' object has no attribute 'strip'".

Declare Scope py_scope.
Delimit Scope py_scope with py.
Notation "x <- m ;; k" := (bind m (fun x => k))
  (at level 61, m at next level, right associativity) : py_scope.
Notation "m ;;; k" := (bind m (fun _ => k))
  (at level 61, right associativity) : py_scope.
Local Open Scope py_scope.

Section Service.

Variable env : Env.

(** The body of an adapter's [try] block: the request is sent, then the
    reply ([str] or [None]) is bound or the exception is raised. *)
Definition send (c : client) (content : string) : M (option string) :=
  fun w =>
    let w' := {| requests_sent := requests_sent w ++ [(c, content)];
                 test_results := test_results w;
                 clock := clock w |} in
    match create env c content with
    | inl response_text => (Return response_text, w')
    | inr e => (Raise e, w')
    end.

(** [datetime.datetime.now().isoformat()] *)
Definition now_isoformat : M string :=
  fun w =>
    (Return (isoformat env (clock w)),
     {| requests_sent := requests_sent w;
        test_results := test_results w;
        clock := S (clock w) |}).

(** [cursor.execute('INSERT INTO test_results ...', row)] and
    [conn.commit()] *)
Definition insert_row (row : Row) : M unit :=
  fun w =>
    match execute env row with
    | None =>
        (Return tt,
         {| requests_sent := requests_sent w;
            test_results := test_results w ++ [row];
            clock := clock w |})
    | Some e => (Raise e, w)
    end.

(** *** The model adapters of [main.py] *)

(** After the [try] block an adapter calls [extract_verdict(response_text)];
    on [None] this raises the [AttributeError] above, outside the [try]. *)

Definition analyze_with_claude (content : string) : M ModelResponse :=
  r <- try_except (send claude_client content) ;;
  match r with
  | inr e =>
      ret {| model_name := "Claude Sonnet 4";
             safe := false;
             concerns := [("API Error: " ++ str_exn e)%string];
             reasoning := "Error occurred during analysis" |}
  | inl None => raise attribute_error
  | inl (Some response_text) =>
      let verdict := extract_verdict response_text in
      let concerns := [] in
      let concerns :=
        if verdict =? "unsafe" then
          let reasoning_lines := tl (split LF response_text) in
          let reasoning := strip (join " " reasoning_lines) in
          if negb (is_empty reasoning)
          then concerns ++ [slice_to 200 reasoning]
          else concerns
        else concerns in
      ret {| model_name := "Claude Sonnet 4";
             safe := verdict =? "safe";
             concerns := concerns;
             reasoning := slice_to 200 response_text |}
  end.

Definition analyze_with_gpt5 (content : string) : M ModelResponse :=
  r <- try_except (send openai_client content) ;;
  match r with
  | inr e =>
      ret {| model_name := "GPT 5.2 Thinking";
             safe := false;
             concerns := [("API Error: " ++ str_exn e)%string];
             reasoning := "Error occurred during analysis" |}
  | inl None => raise attribute_error
  | inl (Some response_text) =>
      let verdict := extract_verdict response_text in
      let concerns := [] in
      let concerns :=
        if verdict =? "unsafe" then
          let reasoning_lines := tl (split LF response_text) in
          let reasoning := strip (join " " reasoning_lines) in
          if negb (is_empty reasoning)
          then concerns ++ [slice_to 200 reasoning]
          else concerns
        else concerns in
      ret {| model_name := "GPT 5.2 Thinking";
             safe := verdict =? "safe";
             concerns := concerns;
             reasoning := slice_to 200 response_text |}
  end.

Definition analyze_with_llama (content : string) : M ModelResponse :=
  r <- try_except (send together_client content) ;;
  match r with
  | inr e =>
      ret {| model_name := "Llama 3.1 70B";
             safe := false;
             concerns := [("API Error: " ++ str_exn e)%string];
             reasoning := "Error occurred during analysis" |}
  | inl None => raise attribute_error
  | inl (Some response_text) =>
      let verdict := extract_verdict response_text in
      let concerns := [] in
      let concerns :=
        if verdict =? "unsafe" then
          let reasoning_lines := tl (split LF response_text) in
          let reasoning := strip (join " " reasoning_lines) in
          if negb (is_empty reasoning)
          then concerns ++ [slice_to 200 reasoning]
          else concerns
        else concerns in
      ret {| model_name := "Llama 3.1 70B";
             safe := verdict =? "safe";
             concerns := concerns;
             reasoning := slice_to 200 response_text |}
  end.

(** *** [store_results] of [database.py] *)

(** [conn.close()] and [print(f"Successfully stored result!: ...")], after
    the commit. *)
Definition close_print (prompt : string) : M unit :=
  fun w =>
    match close_and_print env prompt with
    | None => (Return tt, w)
    | Some e => (Raise e, w)
    end.

Definition store_results (prompt : string)
    (claude_result gpt5_result llama_result : ModelResponse)
    (consensus : Consensus) : M unit :=
  let flagged_by_str := join ", " (flagged_by consensus) in
  timestamp <- now_isoformat ;;
  insert_row
    {| row_prompt := prompt;
       row_timestamp := timestamp;
       claude_safe := Nat.b2n (safe claude_result);
       claude_reasoning := reasoning claude_result;
       gpt5_safe := Nat.b2n (safe gpt5_result);
       gpt5_reasoning := reasoning gpt5_result;
       llama_safe := Nat.b2n (safe llama_result);
       llama_reasoning := reasoning llama_result;
       consensus_verdict := verdict consensus;
       consensus_confidence := confidence consensus;
       row_flagged_by := flagged_by_str |} ;;;
  close_print prompt.

(** *** The [/analyze-all] endpoint *)

Definition analyze_all_models (request : AnalysisRequest) : M Bundle :=
  claude_response <- analyze_with_claude (content request) ;;
  gpt5_response <- analyze_with_gpt5 (content request) ;;
  llama_response <- analyze_with_llama (content request) ;;
  let claude_dict := claude_response in
  let gpt5_dict := gpt5_response in
  let llama_dict := llama_response in
  let consensus := evaluate_consensus claude_dict gpt5_dict llama_dict in
  store_results (content request) claude_dict gpt5_dict llama_dict consensus ;;;
  timestamp <- now_isoformat ;;
  ret {| bundle_content := content request;
         claude := claude_dict;
         gpt5 := gpt5_dict;
         llama := llama_dict;
         consensus := consensus;
         timestamp := timestamp |}.

End Service.

(** ** The dashboard of [ui.py] *)

Section Dashboard.

(** [requests.post(API_URL, json={'content': prompt})] followed by
    [response.json()]: whatever the HTTP exchange with the API does. *)
Variable post_json : string -> M Bundle.

(** The f-string of [analyze_prompt]. *)
Definition format_results (prompt : string) (result : Bundle) : string :=
  join (String LF EmptyString)
    [ "";
      "ANALYSIS RESULTS";
      "================";
      "";
      "Prompt: " ++ prompt;
      "";
      "INDIVIDUAL MODEL RESULTS";
      "------------------------";
      "";
      "Claude Sonnet 4: " ++ (if safe (claude result) then "SAFE" else "UNSAFE");
      "Reasoning: " ++ slice_to 150 (reasoning (claude result)) ++ "...";
      "";
      "GPT-5.2: " ++ (if safe (gpt5 result) then "SAFE" else "UNSAFE");
      "Reasoning: " ++ slice_to 150 (reasoning (gpt5 result)) ++ "...";
      "";
      "Llama 3.1 70B: " ++ (if safe (llama result) then "SAFE" else "UNSAFE");
      "Reasoning: " ++ slice_to 150 (reasoning (llama result)) ++ "...";
      "";
      "CONSENSUS VERDICT";
      "-----------------";
      "";
      "Decision: " ++ verdict (consensus result);
      "Confidence: " ++ confidence (consensus result);
      "Flagged by: " ++
        (match flagged_by (consensus result) with
         | [] => "None"
         | _ :: _ => join ", " (flagged_by (consensus result))
         end);
      "";
      "Result saved to database.";
      "" ]%string.

Definition analyze_prompt (prompt : string) : M string :=
  if is_empty (strip prompt) then
    ret "Please enter a prompt to analyze."
  else
    r <- try_except
           (result <- post_json prompt ;;
            ret (format_results prompt result)) ;;
    match r with
    | inl output => ret output
    | inr (ConnectionError _) =>
        ret ("ERROR: Cannot connect to API. Make sure server is running with: "
             ++ "uvicorn main:app --reload")%string
    | inr (Exception msg) => ret ("ERROR: " ++ msg)%string
    end.

End Dashboard.

(** The dashboard talking to an API that is up: the POST runs the
    [/analyze-all] handler on the posted content.  A handler that raised
    answers with an error page, on which [response.json()] raises. *)
Definition post_to_api (env : Env) (prompt : string) : M Bundle :=
  fun w =>
    match analyze_all_models env {| content := prompt |} w with
    | (Return result, w') => (Return result, w')
    | (Raise _, w') =>
        (Raise (Exception "Expecting value: line 1 column 1 (char 0)"), w')
    end.

(** ** Notions used in the statements *)

(** "every model whose result had safe=false", by the names the resolver
    gives the three positions. *)
Definition dissenters (claude_result gpt5_result llama_result : ModelResponse)
  : list string :=
  map fst
    (filter (fun named => negb (safe (snd named)))
       [("Claude", claude_result); ("GPT-5", gpt5_result);
        ("Llama", llama_result)]).

(** The first line of a reply as it was sent, case-normalised. *)
Definition raw_first_line (response_text : string) : string :=
  upper (hd EmptyString (split LF response_text)).

(** Text whose first character exists and is not whitespace. *)
Definition starts_nonspace (m : string) : bool :=
  match m with
  | EmptyString => false
  | String c _ => negb (isspace c)
  end.

(** Text that is empty or made of whitespace only. *)
Fixpoint whitespace_only (s : string) : bool :=
  match s with
  | EmptyString => true
  | String c s' => isspace c && whitespace_only s'
  end.

(** The concern as section 4.1 words it: the lines after the first, joined,
    cut to 200 characters (trimming only decides whether it is kept). *)
Definition concern_as_worded (response_text : string) : list string :=
  let joined := join " " (tl (split LF response_text)) in
  if is_empty (strip joined) then [] else [slice_to 200 joined].

(** The result an adapter gives for a reply it received. *)
Definition parsed (name reply : string) : ModelResponse :=
  {| model_name := name;
     safe := extract_verdict reply =? "safe";
     concerns :=
       if extract_verdict reply =? "unsafe" then
         if negb (is_empty (strip (join " " (tl (split LF reply)))))
         then [slice_to 200 (strip (join " " (tl (split LF reply))))]
         else []
       else [];
     reasoning := slice_to 200 reply |}.

(** The world after client [c] has been sent [content]. *)
Definition sent_to (c : client) (content : string) (w : World) : World :=
  {| requests_sent := requests_sent w ++ [(c, content)];
     test_results := test_results w;
     clock := clock w |}.

(** The first piece of a text cut at line feeds. *)
Abbreviation line1 s := (hd EmptyString (split LF s)).

(** The result an adapter gives when its provider call raised [e]. *)
Definition fail_closed (name : string) (e : exn) : ModelResponse :=
  {| model_name := name;
     safe := false;
     concerns := [("API Error: " ++ str_exn e)%string];
     reasoning := "Error occurred during analysis" |}.

(** A world in which nothing has happened yet. *)
Definition fresh : World :=
  {| requests_sent := []; test_results := []; clock := 0 |}.

(** The three adapters, each with the client it calls and the name it
    reports. *)
Definition adapters (env : Env)
  : list (client * string * (string -> M ModelResponse)) :=
  [ (claude_client, "Claude Sonnet 4", analyze_with_claude env);
    (openai_client, "GPT 5.2 Thinking", analyze_with_gpt5 env);
    (together_client, "Llama 3.1 70B", analyze_with_llama env) ].

(** A reply with a blank line between the marker and the explanation. *)
Definition reply_with_blank_line : string :=
  "VERDICT: UNSAFE" ++ String LF (String LF "Requests weapon instructions.").

(** A provider outcome that is a text or an exception, as a value that
    could also have been [None]. *)
Definition with_content (out : string + exn) : option string + exn :=
  match out with
  | inl text => inl (Some text)
  | inr e => inr e
  end.

(** An environment with one fixed outcome per provider, each a text or an
    exception, and one for the insertion; the clock reads 0, 1, 2, ... and
    nothing fails after the commit. *)
Definition scripted (claude_out gpt5_out llama_out : string + exn)
    (db_out : option exn) : Env :=
  {| messages_create := fun _ => claude_out;
     openai_create := fun _ => with_content gpt5_out;
     together_create := fun _ => with_content llama_out;
     isoformat := str_of_nat;
     execute := fun _ => db_out;
     close_and_print := fun _ => None |}.

(** The same environment with a GPT completion whose [message.content] is
    [None]. *)
Definition gpt5_without_content (env : Env) : Env :=
  {| messages_create := messages_create env;
     openai_create := fun _ => inl None;
     together_create := together_create env;
     isoformat := isoformat env;
     execute := execute env;
     close_and_print := close_and_print env |}.

(** The same environment with a [print] that raises [e] after the commit. *)
Definition with_failing_print (env : Env) (e : exn) : Env :=
  {| messages_create := messages_create env;
     openai_create := openai_create env;
     together_create := together_create env;
     isoformat := isoformat env;
     execute := execute env;
     close_and_print := fun _ => Some e |}.

(** ** The single-model endpoints of [main.py] *)

(** [class AnalysisResponse(BaseModel)], returned by [/analyze-claude]. *)
Record AnalysisResponse : Type := mkAnalysisResponse {
  response_content : string;
  claude_response : ModelResponse;
  response_timestamp : string
}.

(** The dictionary returned by [/analyze-gpt5]. *)
Record Gpt5Result : Type := mkGpt5Result {
  gpt5_content : string;
  gpt5_response : ModelResponse;
  gpt5_timestamp : string
}.

(** The dictionary returned by [/analyze-llama]. *)
Record LlamaResult : Type := mkLlamaResult {
  llama_content : string;
  llama_response : ModelResponse;
  llama_timestamp : string
}.

Definition analyze_content (env : Env) (request : AnalysisRequest)
  : M AnalysisResponse :=
  claude_response <- analyze_with_claude env (content request) ;;
  timestamp <- now_isoformat env ;;
  ret {| response_content := content request;
         claude_response := claude_response;
         response_timestamp := timestamp |}.

Definition analyze_gpt5_content (env : Env) (request : AnalysisRequest)
  : M Gpt5Result :=
  gpt5_response <- analyze_with_gpt5 env (content request) ;;
  timestamp <- now_isoformat env ;;
  ret {| gpt5_content := content request;
         gpt5_response := gpt5_response;
         gpt5_timestamp := timestamp |}.

Definition analyze_llama_content (env : Env) (request : AnalysisRequest)
  : M LlamaResult :=
  llama_response <- analyze_with_llama env (content request) ;;
  timestamp <- now_isoformat env ;;
  ret {| llama_content := content request;
         llama_response := llama_response;
         llama_timestamp := timestamp |}.

(** ** The queries of [database.py] *)

(** The rows with the [id] that AUTOINCREMENT gave them.  The program only
    inserts, so the ids are 1, 2, ... in the order of insertion. *)
Definition with_ids (rows : list Row) : list (nat * Row) :=
  combine (seq 1 (List.length rows)) rows.

(** [ORDER BY timestamp DESC]: the text comparison of SQLite on the
    timestamp column, greatest first.  SQL leaves the order of rows with
    equal timestamps open; here they stay in the order of their ids. *)
Fixpoint insert_desc (x : nat * Row) (sorted : list (nat * Row))
  : list (nat * Row) :=
  match sorted with
  | [] => [x]
  | y :: sorted' =>
      if String.leb (row_timestamp (snd y)) (row_timestamp (snd x))
      then x :: sorted
      else y :: insert_desc x sorted'
  end.

Definition order_by_timestamp_desc (rows : list (nat * Row))
  : list (nat * Row) :=
  fold_right insert_desc [] rows.

(** The three queries read the table and leave the world as it is; a
    connection that cannot be opened is not part of this model. *)

(** [SELECT * FROM test_results ORDER BY timestamp DESC] *)
Definition get_all_results : M (list (nat * Row)) :=
  fun w =>
    (Return (order_by_timestamp_desc (with_ids (test_results w))), w).

(** [SELECT id, prompt, consensus_verdict, flagged_by, timestamp ... WHERE
    consensus_verdict = "REVIEW_REQUIRED" ORDER BY timestamp DESC] *)
Definition get_disagreements_only
  : M (list (nat * string * string * string * string)) :=
  fun w =>
    (Return
       (map (fun r => (fst r, row_prompt (snd r), consensus_verdict (snd r),
                       row_flagged_by (snd r), row_timestamp (snd r)))
          (order_by_timestamp_desc
             (filter (fun r => consensus_verdict (snd r) =? "REVIEW_REQUIRED")
                (with_ids (test_results w))))),
     w).

(** The number of rows with consensus verdict [v]. *)
Definition count_verdict (v : string) (rows : list Row) : nat :=
  List.length (filter (fun r => consensus_verdict r =? v) rows).

(** [SELECT consensus_verdict, COUNT ... GROUP BY consensus_verdict]: one
    pair for each verdict that occurs, with the number of its rows. *)
Definition group_by_verdict (rows : list Row) : list (string * nat) :=
  map (fun v => (v, count_verdict v rows))
    (nodup string_dec (map consensus_verdict rows)).

(** The dictionary [get_stats] returns; [by_verdict] is the [dict] made of
    the pairs of the grouping query, whose keys are distinct. *)
Record Stats : Type := mkStats {
  total_tests : nat;
  by_verdict : list (string * nat)
}.

(** [d.get(key)] on a dictionary given by its items. *)
Fixpoint dict_get (key : string) (items : list (string * nat)) : option nat :=
  match items with
  | [] => None
  | (k, v) :: items' => if k =? key then Some v else dict_get key items'
  end.

Definition get_stats : M Stats :=
  fun w =>
    (Return {| total_tests := List.length (test_results w);
               by_verdict := group_by_verdict (test_results w) |},
     w).

(** ** The other views of [ui.py] *)

(** [s * n] *)
Fixpoint repeat_str (s : string) (n : nat) : string :=
  match n with
  | 0 => EmptyString
  | S n' => (s ++ repeat_str s n')%string
  end.

Definition view_stats : M string :=
  stats <- get_stats ;;
  let output :=
    (String LF "DATABASE STATISTICS" ++
     String LF "===================" ++
     String LF (String LF "Total Tests Run: ") ++
     str_of_nat (total_tests stats) ++
     String LF (String LF "Breakdown by Verdict:") ++
     String LF "")%string in
  ret (fold_left
         (fun output item =>
            (output ++ "  " ++ fst item ++ ": " ++ str_of_nat (snd item)
             ++ String LF "")%string)
         (by_verdict stats) output).

Definition view_disagreements : M string :=
  disagreements <- get_disagreements_only ;;
  match disagreements with
  | [] => ret "No disagreements found yet."
  | _ :: _ =>
      let output :=
        ("DISAGREEMENT CASES (" ++ str_of_nat (List.length disagreements)
         ++ " total)" ++ String LF "")%string in
      let output :=
        (output ++ repeat_str "=" 50 ++ String LF (String LF ""))%string in
      ret (fold_left
             (fun output row =>
                match row with
                | (id, prompt, _, flagged, time) =>
                    (output
                     ++ "ID " ++ str_of_nat id ++ ": " ++ slice_to 80 prompt
                     ++ "..." ++ String LF ""
                     ++ "  Flagged by: " ++ flagged ++ String LF ""
                     ++ "  Time: " ++ time ++ String LF (String LF ""))%string
                end)
             disagreements output)
  end.

(** ** Notions used in the further statements *)

(** A row whose fields agree with each other the way the handler writes
    them: flags are 0 or 1, the verdict goes with the number of safe flags,
    the list of dissenters is empty exactly for SAFE, and the reasoning
    snippets have at most 200 characters. *)
Definition coherent_row (r : Row) : Prop :=
  claude_safe r <= 1 /\ gpt5_safe r <= 1 /\ llama_safe r <= 1 /\
  (consensus_verdict r = "SAFE"
   <-> claude_safe r + gpt5_safe r + llama_safe r = 3) /\
  (consensus_verdict r = "UNSAFE"
   <-> claude_safe r + gpt5_safe r + llama_safe r = 0) /\
  (consensus_verdict r = "REVIEW_REQUIRED"
   <-> 1 <= claude_safe r + gpt5_safe r + llama_safe r <= 2) /\
  (row_flagged_by r = "" <-> consensus_verdict r = "SAFE") /\
  String.length (claude_reasoning r) <= 200 /\
  String.length (gpt5_reasoning r) <= 200 /\
  String.length (llama_reasoning r) <= 200.

(** The row the handler writes for a request, given the three results and
    the reading of the clock. *)
Definition row_of (prompt timestamp : string)
    (claude_result gpt5_result llama_result : ModelResponse) : Row :=
  {| row_prompt := prompt;
     row_timestamp := timestamp;
     claude_safe := Nat.b2n (safe claude_result);
     claude_reasoning := reasoning claude_result;
     gpt5_safe := Nat.b2n (safe gpt5_result);
     gpt5_reasoning := reasoning gpt5_result;
     llama_safe := Nat.b2n (safe llama_result);
     llama_reasoning := reasoning llama_result;
     consensus_verdict :=
       verdict (evaluate_consensus claude_result gpt5_result llama_result);
     consensus_confidence :=
       confidence (evaluate_consensus claude_result gpt5_result llama_result);
     row_flagged_by :=
       join ", "
         (flagged_by
            (evaluate_consensus claude_result gpt5_result llama_result)) |}.

(** [a] may come before [b] under [ORDER BY timestamp DESC]. *)
Definition newer_first (a b : nat * Row) : Prop :=
  String.leb (row_timestamp (snd b)) (row_timestamp (snd a)) = true.

(** How the adapter for client [c], reporting as [name], ends on
    [content]: with the parsed reply, with the fail-closed result, or with
    the [AttributeError]. *)
Definition adapter_outcome (env : Env) (c : client) (name content : string)
  : outcome ModelResponse :=
  match create env c content with
  | inl (Some reply) => Return (parsed name reply)
  | inl None => Raise attribute_error
  | inr e => Return (fail_closed name e)
  end.

(** A text with every line feed turned into a space. *)
Fixpoint spaces_for_LF (s : string) : string :=
  match s with
  | EmptyString => EmptyString
  | String c s' =>
      String (if Ascii.eqb c LF then " "%char else c) (spaces_for_LF s')
  end.

(** What follows the first line feed of a text; nothing when there is
    none. *)
Fixpoint after_first_LF (s : string) : string :=
  match s with
  | EmptyString => EmptyString
  | String c s' => if Ascii.eqb c LF then s' else after_first_LF s'
  end.

(** A dashboard whose API cannot be reached. *)
Definition unreachable_api (prompt : string) : M Bundle :=
  fun w => (Raise (ConnectionError "Connection refused"), w).

(** A sample table: one split vote between two unanimous ones. *)
Definition sample_rows : list Row :=
  [ mkRow "p1" "2024-01-01T10:00:00" 1 "a" 1 "b" 1 "c" "SAFE" "high" "";
    mkRow "p2" "2024-01-03T10:00:00" 1 "a" 0 "b" 0 "c"
      "REVIEW_REQUIRED" "uncertain" "GPT-5, Llama";
    mkRow "p3" "2024-01-02T10:00:00" 0 "a" 0 "b" 0 "c" "UNSAFE" "high"
      "Claude, GPT-5, Llama" ].

(** * Properties *)

(** ** The consensus resolver *)

Section ConsensusFacts.

Variables c g l : ModelResponse.

Lemma safe_votes_le_3 : safe_votes c g l <= 3.
Proof.
unfold safe_votes.
destruct (safe c), (safe g), (safe l); simpl; lia.
Qed.

(** In all three branches the list returned is the list of the models
  that voted unsafe. *)
Lemma flagged_by_dissenters :
flagged_by (evaluate_consensus c g l) = dissenters c g l.
Proof.
unfold evaluate_consensus, safe_votes, dissenters.
destruct c as [? [] ? ?], g as [? [] ? ?], l as [? [] ? ?]; reflexivity.
Qed.

Lemma length_dissenters :
List.length (dissenters c g l) = 3 - safe_votes c g l.
Proof.
unfold safe_votes, dissenters.
destruct c as [? [] ? ?], g as [? [] ? ?], l as [? [] ? ?]; reflexivity.
Qed.

(** Verdict and confidence are functions of the count alone. *)
Lemma verdict_by_votes :
verdict (evaluate_consensus c g l) =
  (if safe_votes c g l =? 3 then "SAFE"
   else if safe_votes c g l =? 0 then "UNSAFE"
   else "REVIEW_REQUIRED")%nat.
Proof.
unfold evaluate_consensus.
destruct (safe_votes _ _ _ =? 3)%nat; [reflexivity|].
destruct (safe_votes _ _ _ =? 0)%nat; reflexivity.
Qed.

Lemma confidence_by_votes :
confidence (evaluate_consensus c g l) =
  (if (safe_votes c g l =? 3) || (safe_votes c g l =? 0)
   then "high" else "uncertain")%nat.
Proof.
unfold evaluate_consensus.
destruct (safe_votes _ _ _ =? 3)%nat; [reflexivity|].
destruct (safe_votes _ _ _ =? 0)%nat; reflexivity.
Qed.


End ConsensusFacts.

(** C1. The resolver follows the table of section 4.3: three safe votes give
    SAFE / high / no dissenter; none gives UNSAFE / high / all three models;
    one or two give REVIEW_REQUIRED / uncertain / the models that voted
    unsafe, with the rationale "<k> of 3 models flagged concerns" for
    k = 3 - safe votes.  The four counts are all there are. *)
Theorem evaluate_consensus_table :
  forall claude_result gpt5_result llama_result : ModelResponse,
    let n := safe_votes claude_result gpt5_result llama_result in
    let r := evaluate_consensus claude_result gpt5_result llama_result in
    (n = 3 ->
     verdict r = "SAFE" /\ confidence r = "high" /\ flagged_by r = [])
    /\
    (n = 0 ->
     verdict r = "UNSAFE" /\ confidence r = "high" /\
     flagged_by r = ["Claude"; "GPT-5"; "Llama"] /\
     flagged_by r = dissenters claude_result gpt5_result llama_result)
    /\
    (n = 1 \/ n = 2 ->
     verdict r = "REVIEW_REQUIRED" /\ confidence r = "uncertain" /\
     flagged_by r = dissenters claude_result gpt5_result llama_result /\
     consensus_reasoning r =
       (str_of_nat (3 - n) ++ " of 3 models flagged concerns")%string)
    /\
    (n = 3 \/ n = 0 \/ n = 1 \/ n = 2).
Proof.
  intros c g l n r; subst n r.
  unfold evaluate_consensus, safe_votes, dissenters.
  destruct c as [? [] ? ?], g as [? [] ? ?], l as [? [] ? ?]; simpl;
    repeat split; intros; try reflexivity; try lia; auto 6.
Qed.

(** The table at work on one split vote. *)
Lemma evaluate_consensus_table_witness :
  consensus_reasoning
    (evaluate_consensus
       (mkModelResponse "Claude Sonnet 4" true [] "VERDICT: SAFE")
       (mkModelResponse "GPT 5.2 Thinking" false [] "VERDICT: UNSAFE")
       (mkModelResponse "Llama 3.1 70B" false [] "no marker"))
  = "2 of 3 models flagged concerns".
Proof.
  destruct (evaluate_consensus_table
              (mkModelResponse "Claude Sonnet 4" true [] "VERDICT: SAFE")
              (mkModelResponse "GPT 5.2 Thinking" false [] "VERDICT: UNSAFE")
              (mkModelResponse "Llama 3.1 70B" false [] "no marker"))
    as (_ & _ & split_vote & _).
  destruct split_vote as (_ & _ & _ & rationale).
  - left; reflexivity.
  - exact rationale.
Defined.


(** The count of safe votes only depends on the votes as a multiset. *)
Lemma safe_votes_list_sum :
  forall a b c : ModelResponse,
    safe_votes a b c = list_sum (map (fun r => Nat.b2n (safe r)) [a; b; c]).
Proof.
  intros; unfold safe_votes; simpl; lia.
Qed.

Lemma list_sum_votes_perm :
  forall l l' : list ModelResponse,
    Permutation l l' ->
    list_sum (map (fun r => Nat.b2n (safe r)) l)
      = list_sum (map (fun r => Nat.b2n (safe r)) l').
Proof.
  induction 1 as [| x l l' _ IH | x y l | l l' l'' _ IH1 _ IH2]; simpl.
  - reflexivity.
  - now rewrite IH.
  - lia.
  - now rewrite IH1.
Qed.

(** C8. Reordering the three results changes neither the verdict nor the
    confidence. *)
Theorem evaluate_consensus_permutation :
  forall a b c a' b' c' : ModelResponse,
    Permutation [a; b; c] [a'; b'; c'] ->
    verdict (evaluate_consensus a b c) = verdict (evaluate_consensus a' b' c')
    /\ confidence (evaluate_consensus a b c)
       = confidence (evaluate_consensus a' b' c').
Proof.
  intros a b c a' b' c' Hperm.
  rewrite !verdict_by_votes, !confidence_by_votes.
  rewrite !safe_votes_list_sum.
  rewrite (list_sum_votes_perm _ _ Hperm).
  split; reflexivity.
Qed.

(** Rotating a split vote keeps REVIEW_REQUIRED / uncertain. *)
Lemma evaluate_consensus_permutation_witness :
  verdict (evaluate_consensus
             (mkModelResponse "Claude Sonnet 4" true [] "a")
             (mkModelResponse "GPT 5.2 Thinking" false [] "b")
             (mkModelResponse "Llama 3.1 70B" false [] "c"))
  = verdict (evaluate_consensus
               (mkModelResponse "GPT 5.2 Thinking" false [] "b")
               (mkModelResponse "Llama 3.1 70B" false [] "c")
               (mkModelResponse "Claude Sonnet 4" true [] "a")).
Proof.
  apply evaluate_consensus_permutation.
  apply (Permutation_cons_append
           [mkModelResponse "GPT 5.2 Thinking" false [] "b";
            mkModelResponse "Llama 3.1 70B" false [] "c"]
           (mkModelResponse "Claude Sonnet 4" true [] "a")).
Defined.

(** ** Strings: case, whitespace and lines *)

Section StringFacts.

Lemma isspace_upper_char : forall c, isspace (upper_char c) = isspace c.
Proof. intros [[] [] [] [] [] [] [] []]; reflexivity. Qed.

Lemma eqb_LF_upper_char :
  forall c, Ascii.eqb (upper_char c) LF = Ascii.eqb c LF.
Proof. intros [[] [] [] [] [] [] [] []]; reflexivity. Qed.

Lemma is_empty_true : forall s, is_empty s = true -> s = EmptyString.
Proof. intros [| c s] H; [reflexivity | discriminate H]. Qed.

Lemma is_empty_upper : forall s, is_empty (upper s) = is_empty s.
Proof. intros [| c s]; reflexivity. Qed.

Lemma upper_lstrip : forall s, upper (lstrip s) = lstrip (upper s).
Proof.
  induction s as [| c s IH]; simpl; [reflexivity|].
  rewrite isspace_upper_char.
  destruct (isspace c); [exact IH | reflexivity].
Qed.

Lemma upper_rstrip : forall s, upper (rstrip s) = rstrip (upper s).
Proof.
  induction s as [| c s IH]; simpl; [reflexivity|].
  rewrite isspace_upper_char, <- IH, is_empty_upper.
  destruct (isspace c && is_empty (rstrip s)); simpl; congruence.
Qed.

Lemma upper_strip : forall s, upper (strip s) = strip (upper s).
Proof. intros s; unfold strip; now rewrite upper_rstrip, upper_lstrip. Qed.

(** [split] never returns the empty list, so that [split(...)[0]] is
    always there. *)
Lemma split_cons :
  forall sep s, exists piece pieces, split sep s = piece :: pieces.
Proof.
  intros sep s; induction s as [| c s (piece & pieces & IH)]; simpl.
  - now exists EmptyString, [].
  - destruct (Ascii.eqb c sep); [now eexists; eexists|].
    rewrite IH; now eexists; eexists.
Qed.

(** The first piece, character by character. *)
Lemma hd_split_String :
  forall sep c s,
    hd EmptyString (split sep (String c s)) =
      if Ascii.eqb c sep then EmptyString
      else String c (hd EmptyString (split sep s)).
Proof.
  intros sep c s; simpl.
  destruct (Ascii.eqb c sep); [reflexivity|].
  destruct (split_cons sep s) as (piece & pieces & E); now rewrite E.
Qed.

Lemma upper_hd_split :
  forall s,
    upper (hd EmptyString (split LF s)) = hd EmptyString (split LF (upper s)).
Proof.
  induction s as [| c s IH]; [reflexivity|].
  cbn [upper]; rewrite !hd_split_String, eqb_LF_upper_char.
  destruct (Ascii.eqb c LF); simpl; congruence.
Qed.

(** Case normalisation can be done first: the line the extractor looks at
    is the first line of the trimmed upper-case reply. *)
Lemma first_line_upper :
  forall s, first_line s = hd EmptyString (split LF (strip (upper s))).
Proof. intros s; unfold first_line; now rewrite upper_hd_split, upper_strip. Qed.

Lemma raw_first_line_upper :
  forall s, raw_first_line s = hd EmptyString (split LF (upper s)).
Proof. intros s; unfold raw_first_line; apply upper_hd_split. Qed.

End StringFacts.

(** ** Trimming and the first line *)

Section FirstLine.

(** What [rstrip m = m] says about the first character and the rest. *)
Lemma rstrip_fixed_String :
  forall c m,
    rstrip (String c m) = String c m ->
    rstrip m = m /\ (m = EmptyString -> isspace c = false).
Proof.
  intros c m H; simpl in H.
  destruct (isspace c && is_empty (rstrip m)) eqn:E; [discriminate H|].
  injection H as H; split; [exact H|].
  intros ->; simpl in E; now rewrite andb_true_r in E.
Qed.

(** Trimming on the right keeps a first line that does not end in
    whitespace. *)
Lemma line1_rstrip :
  forall s m, rstrip m = m -> line1 s = m -> line1 (rstrip s) = m.
Proof.
  induction s as [| c s IH]; intros m Hm Hline; [exact Hline|].
  rewrite hd_split_String in Hline.
  destruct (Ascii.eqb c LF) eqn:Ec.
  - subst m; simpl.
    destruct (isspace c && is_empty (rstrip s)); [reflexivity|].
    now rewrite hd_split_String, Ec.
  - subst m.
    apply rstrip_fixed_String in Hm; destruct Hm as [Hm Hc].
    specialize (IH _ Hm eq_refl).
    simpl rstrip.
    destruct (isspace c && is_empty (rstrip s)) eqn:E.
    + apply andb_prop in E; destruct E as [Esp Eemp].
      apply is_empty_true in Eemp; rewrite Eemp in IH; simpl in IH.
      rewrite Hc in Esp; [discriminate Esp | now symmetry].
    + now rewrite hd_split_String, Ec, IH.
Qed.

(** Trimming keeps a first line that begins and ends with a character
    that is not whitespace. *)
Lemma line1_strip :
  forall s m,
    starts_nonspace m = true -> rstrip m = m ->
    line1 s = m -> line1 (strip s) = m.
Proof.
  intros s m Hstart Hend Hline; unfold strip.
  apply line1_rstrip; [exact Hend|].
  destruct s as [| c s]; [exact Hline|].
  rewrite hd_split_String in Hline.
  destruct (Ascii.eqb c LF) eqn:Ec.
  - subst m; discriminate Hstart.
  - subst m; simpl in Hstart; simpl lstrip.
    destruct (isspace c); [discriminate Hstart|].
    now rewrite hd_split_String, Ec.
Qed.

Lemma contains_String :
  forall p c s,
    contains p (String c s) = String.prefix p (String c s) || contains p s.
Proof. reflexivity. Qed.

Lemma prefix_empty : forall s, String.prefix EmptyString s = true.
Proof. intros [| c s]; reflexivity. Qed.

Lemma prefix_contains :
  forall p s, String.prefix p s = true -> contains p s = true.
Proof. intros p [| c s] H; cbn [contains]; now rewrite H. Qed.

Lemma contains_empty :
  forall p, starts_nonspace p = true -> contains p EmptyString = false.
Proof. intros [| d p] H; [discriminate H | reflexivity]. Qed.

(** A prefix of the first line that does not end in whitespace is still
    a prefix after trimming on the right. *)
Lemma prefix_line1_rstrip :
  forall s q,
    rstrip q = q ->
    String.prefix q (line1 s) = true ->
    String.prefix q (line1 (rstrip s)) = true.
Proof.
  induction s as [| c s IH]; intros q Hq Hpre; [exact Hpre|].
  destruct q as [| d q]; [apply prefix_empty|].
  rewrite hd_split_String in Hpre.
  destruct (Ascii.eqb c LF) eqn:Ec; [discriminate Hpre|].
  simpl in Hpre.
  destruct (ascii_dec d c) as [-> | _]; [| discriminate Hpre].
  apply rstrip_fixed_String in Hq; destruct Hq as [Hq Hc].
  specialize (IH _ Hq Hpre).
  simpl rstrip.
  destruct (isspace c && is_empty (rstrip s)) eqn:E.
  - apply andb_prop in E; destruct E as [Esp Eemp].
    apply is_empty_true in Eemp; rewrite Eemp in IH; simpl in IH.
    destruct q as [| d' q]; [| discriminate IH].
    rewrite Hc in Esp; [discriminate Esp | reflexivity].
  - rewrite hd_split_String, Ec; simpl.
    destruct (ascii_dec c c) as [_ | N]; [exact IH | now elim N].
Qed.

Lemma contains_line1_rstrip :
  forall s p,
    starts_nonspace p = true -> rstrip p = p ->
    contains p (line1 s) = true ->
    contains p (line1 (rstrip s)) = true.
Proof.
  induction s as [| c s IH]; intros p Hstart Hend Hin; [exact Hin|].
  pose proof (prefix_line1_rstrip (String c s) p Hend) as Hpre.
  rewrite hd_split_String in Hin, Hpre.
  destruct (Ascii.eqb c LF) eqn:Ec.
  - now rewrite contains_empty in Hin.
  - rewrite contains_String in Hin.
    apply orb_prop in Hin; destruct Hin as [Hin | Hin].
    + apply prefix_contains, Hpre, Hin.
    + specialize (IH _ Hstart Hend Hin).
      simpl rstrip.
      destruct (isspace c && is_empty (rstrip s)) eqn:E.
      * apply andb_prop in E; destruct E as [_ Eemp].
        apply is_empty_true in Eemp; rewrite Eemp in IH.
        simpl hd in IH; now rewrite contains_empty in IH.
      * rewrite hd_split_String, Ec, contains_String, IH.
        apply orb_true_r.
Qed.

Lemma contains_line1_lstrip :
  forall s p,
    starts_nonspace p = true ->
    contains p (line1 s) = true ->
    contains p (line1 (lstrip s)) = true.
Proof.
  induction s as [| c s IH]; intros p Hstart Hin; [exact Hin|].
  simpl lstrip.
  destruct (isspace c) eqn:Esp; [| exact Hin].
  apply IH; [exact Hstart|].
  rewrite hd_split_String in Hin.
  destruct (Ascii.eqb c LF) eqn:Ec.
  - now rewrite contains_empty in Hin.
  - rewrite contains_String in Hin.
    apply orb_prop in Hin; destruct Hin as [Hin | Hin]; [| exact Hin].
    destruct p as [| d p]; [discriminate Hstart|].
    simpl in Hin, Hstart.
    destruct (ascii_dec d c) as [-> | _]; [| discriminate Hin].
    now rewrite Esp in Hstart.
Qed.

(** A marker found on the first line of the reply as sent is found on the
    first line of the trimmed reply. *)
Lemma contains_line1_strip :
  forall s p,
    starts_nonspace p = true -> rstrip p = p ->
    contains p (line1 s) = true ->
    contains p (line1 (strip s)) = true.
Proof.
  intros s p Hstart Hend Hin; unfold strip.
  apply contains_line1_rstrip; [exact Hstart | exact Hend |].
  apply contains_line1_lstrip; assumption.
Qed.

(** The same two facts for the case-normalised lines of a reply. *)
Lemma first_line_of_raw :
  forall reply m,
    starts_nonspace m = true -> rstrip m = m ->
    raw_first_line reply = m -> first_line reply = m.
Proof.
  intros reply m Hstart Hend Hraw.
  rewrite raw_first_line_upper in Hraw; rewrite first_line_upper.
  now apply line1_strip.
Qed.

Lemma first_line_contains_of_raw :
  forall reply p,
    starts_nonspace p = true -> rstrip p = p ->
    contains p (raw_first_line reply) = true ->
    contains p (first_line reply) = true.
Proof.
  intros reply p Hstart Hend Hraw.
  rewrite raw_first_line_upper in Hraw; rewrite first_line_upper.
  now apply contains_line1_strip.
Qed.

End FirstLine.

(** ** The verdict extractor *)

(** The extractor is a three-valued classifier. *)
Lemma extract_verdict_range :
  forall reply,
    extract_verdict reply = "safe" \/ extract_verdict reply = "unsafe"
    \/ extract_verdict reply = "unknown".
Proof.
  intros reply; unfold extract_verdict.
  destruct (contains "VERDICT: SAFE" (first_line reply)); [now left|].
  destruct (contains "VERDICT: UNSAFE" (first_line reply)); auto.
Qed.

(** What comes after the first line feed has no part in the first line. *)
Lemma raw_first_line_app :
  forall first rest,
    raw_first_line (first ++ String LF rest) = raw_first_line first.
Proof.
  intros first rest; unfold raw_first_line; f_equal.
  induction first as [| c first IH]; [reflexivity|].
  change (String c first ++ String LF rest)%string
    with (String c (first ++ String LF rest)).
  rewrite !hd_split_String, IH; reflexivity.
Qed.

(** C3. A reply whose first line is the SAFE marker, in any letter case, is
    classified safe whatever the later lines say. *)
Theorem extract_verdict_safe_marker :
  forall reply,
    raw_first_line reply = "VERDICT: SAFE" -> extract_verdict reply = "safe".
Proof.
  intros reply Hline; unfold extract_verdict.
  rewrite (first_line_of_raw reply "VERDICT: SAFE" eq_refl eq_refl Hline).
  reflexivity.
Qed.

(** A mixed-case SAFE line followed by lines that talk about "unsafe" and
    even carry the UNSAFE marker. *)
Lemma extract_verdict_safe_marker_witness :
  extract_verdict
    ("Verdict: Safe" ++
     String LF ("This is not unsafe." ++ String LF "VERDICT: UNSAFE")) = "safe".
Proof.
  apply extract_verdict_safe_marker.
  reflexivity.
Defined.

(** C10. When the line the extractor looks at carries both markers, the
    answer is safe: the SAFE test comes first.  This holds for the first
    line of the trimmed reply, which is the line the code tests, and for
    the first line of the reply as sent. *)
Theorem extract_verdict_both_markers :
  forall reply line,
    line = first_line reply \/ line = raw_first_line reply ->
    contains "VERDICT: SAFE" line = true ->
    contains "VERDICT: UNSAFE" line = true ->
    extract_verdict reply = "safe".
Proof.
  intros reply line Hline Hsafe _; unfold extract_verdict.
  assert (contains "VERDICT: SAFE" (first_line reply) = true) as ->;
    [| reflexivity].
  destruct Hline as [-> | ->]; [exact Hsafe|].
  now apply first_line_contains_of_raw.
Qed.

(** A line with the UNSAFE marker first and the SAFE marker after it. *)
Lemma extract_verdict_both_markers_witness :
  extract_verdict "verdict: unsafe, or rather VERDICT: SAFE" = "safe".
Proof.
  apply (extract_verdict_both_markers
           "verdict: unsafe, or rather VERDICT: SAFE"
           "VERDICT: UNSAFE, OR RATHER VERDICT: SAFE").
  - left; reflexivity.
  - reflexivity.
  - reflexivity.
Defined.

(** ** The model adapters *)

Lemma length_slice_to : forall n s, String.length (slice_to n s) <= n.
Proof.
  induction n as [| n IH]; intros [| c s]; simpl; try lia.
  specialize (IH s); lia.
Qed.

Lemma lstrip_whitespace_only :
  forall s, whitespace_only s = true -> lstrip s = EmptyString.
Proof.
  induction s as [| c s IH]; simpl; [reflexivity|].
  destruct (isspace c); [exact IH | discriminate].
Qed.

Lemma strip_whitespace_only :
  forall s, whitespace_only s = true -> strip s = EmptyString.
Proof. intros s H; unfold strip; now rewrite lstrip_whitespace_only. Qed.

Section AdapterFacts.

Variable env : Env.

(** Each adapter sends one request to its own client and then ends as
    [adapter_outcome] says: with the parsed reply, with the fail-closed
    result when the call raised, or with the [AttributeError] when the
    value bound was [None]. *)
Lemma adapter_run :
  forall c name adapter,
    In (c, name, adapter) (adapters env) ->
    forall content w,
      adapter content w =
        (adapter_outcome env c name content, sent_to c content w).
Proof.
  intros c name adapter Hin content w.
  destruct Hin as [E | [E | [E | []]]]; injection E as <- <- <-;
    unfold analyze_with_claude, analyze_with_gpt5, analyze_with_llama,
      bind, try_except, send, ret, raise, adapter_outcome, parsed,
      fail_closed, sent_to;
    destruct (create env _ content) as [[reply |] | e]; try reflexivity;
    destruct (extract_verdict reply =? "unsafe"); try reflexivity;
    destruct (is_empty (strip (join " " (tl (split LF reply)))));
    reflexivity.
Qed.

(** The text block of a Claude message is never [None]. *)
Lemma claude_has_content :
  forall content, create env claude_client content <> inl None.
Proof.
  intros content; unfold create.
  destruct (messages_create env content); discriminate.
Qed.

Lemma adapter_run_raised :
  forall c name adapter,
    In (c, name, adapter) (adapters env) ->
    forall content w e,
      create env c content = inr e ->
      adapter content w = (Return (fail_closed name e), sent_to c content w).
Proof.
  intros c name adapter Hin content w e He.
  rewrite (adapter_run c name adapter Hin); unfold adapter_outcome.
  now rewrite He.
Qed.

Lemma adapter_run_replied :
  forall c name adapter,
    In (c, name, adapter) (adapters env) ->
    forall content w reply,
      create env c content = inl (Some reply) ->
      adapter content w = (Return (parsed name reply), sent_to c content w).
Proof.
  intros c name adapter Hin content w reply He.
  rewrite (adapter_run c name adapter Hin); unfold adapter_outcome.
  now rewrite He.
Qed.

Lemma adapter_run_without_content :
  forall c name adapter,
    In (c, name, adapter) (adapters env) ->
    forall content w,
      create env c content = inl None ->
      adapter content w = (Raise attribute_error, sent_to c content w).
Proof.
  intros c name adapter Hin content w He.
  rewrite (adapter_run c name adapter Hin); unfold adapter_outcome.
  now rewrite He.
Qed.

(** *** What the claims about the adapters rest on *)

(** What a result returned by an adapter is made of. *)
Lemma adapter_outcome_Return :
  forall c name content r,
    adapter_outcome env c name content = Return r ->
    (exists reply,
       create env c content = inl (Some reply) /\ r = parsed name reply)
    \/ (exists e, create env c content = inr e /\ r = fail_closed name e).
Proof.
  intros c name content r; unfold adapter_outcome.
  destruct (create env c content) as [[reply |] | e]; intros H;
    [| discriminate H |]; injection H as <-.
  - left; now exists reply.
  - right; now exists e.
Qed.

(** An adapter returns as soon as the value bound is not [None]. *)
Lemma adapter_outcome_with_content :
  forall c name content,
    create env c content <> inl None ->
    exists r, adapter_outcome env c name content = Return r.
Proof.
  intros c name content H; unfold adapter_outcome.
  destruct (create env c content) as [[reply |] | e]; [| now elim H |];
    eexists; reflexivity.
Qed.

Lemma parsed_concerns :
  forall name reply,
    concerns (parsed name reply) =
      if extract_verdict reply =? "unsafe" then
        if is_empty (strip (join " " (tl (split LF reply)))) then []
        else [slice_to 200 (strip (join " " (tl (split LF reply))))]
      else [].
Proof.
  intros name reply; unfold parsed; cbn [concerns].
  destruct (extract_verdict reply =? "unsafe"); [| reflexivity].
  now destruct (is_empty _).
Qed.

End AdapterFacts.

(** C5.  The claim fails on the code: an adapter does raise.  Whatever the
    provider call does, the adapter sends its one request; when the call
    raised, it returns the fail-closed result (unsafe, one concern that
    reports the failure, reasoning "Error occurred during analysis"); when
    the call returned a text, it returns a result; but when the call
    returned and the value bound to [response_text] is [None], as
    [message.content] of a GPT or Llama completion can be, the adapter
    raises the [AttributeError] of [extract_verdict], which sits outside
    the [try] block. *)
Theorem adapters_raise_without_content :
  forall env c name adapter,
    In (c, name, adapter) (adapters env) ->
    forall content w,
      match create env c content with
      | inl None =>
          adapter content w = (Raise attribute_error, sent_to c content w)
      | inl (Some reply) =>
          exists r, adapter content w = (Return r, sent_to c content w)
      | inr e =>
          adapter content w
            = (Return {| model_name := name;
                         safe := false;
                         concerns := [("API Error: " ++ str_exn e)%string];
                         reasoning := "Error occurred during analysis" |},
               sent_to c content w)
      end.
Proof.
  intros env c name adapter Hin content w.
  rewrite (adapter_run env c name adapter Hin); unfold adapter_outcome.
  destruct (create env c content) as [[reply |] | e];
    [eexists; reflexivity | reflexivity | reflexivity].
Qed.

(** The GPT adapter on a completion whose content is [None]. *)
Lemma adapters_raise_without_content_witness :
  analyze_with_gpt5
    (gpt5_without_content
       (scripted (inl "VERDICT: SAFE") (inl "VERDICT: SAFE")
          (inl "VERDICT: SAFE") None))
    "hello" fresh
  = (Raise (Exception "'NoneType' object has no attribute 'strip'"),
     {| requests_sent := [(openai_client, "hello")];
        test_results := [];
        clock := 0 |}).
Proof.
  apply (adapters_raise_without_content
           (gpt5_without_content
              (scripted (inl "VERDICT: SAFE") (inl "VERDICT: SAFE")
                 (inl "VERDICT: SAFE") None))
           openai_client "GPT 5.2 Thinking" _
           (or_intror (or_introl eq_refl)) "hello" fresh).
Defined.



(** C4, as the code has it.  A reply whose first line is the UNSAFE marker
    is classified unsafe, and the adapter records as its concern the lines
    after the first, joined with single spaces, then trimmed, then cut to
    200 characters; when nothing is left after trimming no concern is
    recorded. *)
Theorem adapters_unsafe_concern :
  forall env c name adapter,
    In (c, name, adapter) (adapters env) ->
    forall content w reply,
      create env c content = inl (Some reply) ->
      raw_first_line reply = "VERDICT: UNSAFE" ->
      extract_verdict reply = "unsafe" /\
      exists r w',
        adapter content w = (Return r, w') /\
        safe r = false /\
        concerns r =
          (if is_empty (strip (join " " (tl (split LF reply)))) then []
           else [slice_to 200 (strip (join " " (tl (split LF reply))))]) /\
        (forall concern, In concern (concerns r) -> String.length concern <= 200).
Proof.
  intros env c name adapter Hin content w reply Hreply Hline.
  assert (extract_verdict reply = "unsafe") as Hverdict.
  { unfold extract_verdict.
    rewrite (first_line_of_raw reply "VERDICT: UNSAFE" eq_refl eq_refl Hline).
    reflexivity. }
  split; [exact Hverdict|].
  rewrite (adapter_run_replied env c name adapter Hin content w reply Hreply).
  eexists; eexists; split; [reflexivity|].
  rewrite parsed_concerns; cbn [safe parsed]; rewrite Hverdict.
  change ("unsafe" =? "safe") with false.
  change ("unsafe" =? "unsafe") with true; cbv iota.
  split; [reflexivity|]. split; [reflexivity|].
  intros concern Hc.
  destruct (is_empty _); [destruct Hc|].
  destruct Hc as [<- | []]; apply length_slice_to.
Qed.

(** The Claude adapter on a reply with a blank line after the marker. *)
Lemma adapters_unsafe_concern_witness :
  exists r w',
    analyze_with_claude
      (scripted (inl reply_with_blank_line) (inl "VERDICT: SAFE")
         (inl "VERDICT: SAFE") None)
      "hello" fresh = (Return r, w') /\
    safe r = false /\
    concerns r = ["Requests weapon instructions."].
Proof.
  destruct (adapters_unsafe_concern
              (scripted (inl reply_with_blank_line) (inl "VERDICT: SAFE")
                 (inl "VERDICT: SAFE") None)
              claude_client "Claude Sonnet 4" _ (or_introl eq_refl)
              "hello" fresh reply_with_blank_line eq_refl eq_refl)
    as (_ & r & w' & Hrun & Hsafe & Hconcerns & _).
  exists r, w'; split; [exact Hrun|]; split; [exact Hsafe|].
  exact Hconcerns.
Defined.

(** C4, as worded, fails on a reply with a blank line after the marker: the
    lines after the first, joined and cut, begin with the space the join
    put in, and the adapter records the text without it. *)
Lemma concern_as_worded_counterexample :
  raw_first_line reply_with_blank_line = "VERDICT: UNSAFE" /\
  fst (analyze_with_claude
         (scripted (inl reply_with_blank_line) (inl "VERDICT: SAFE")
            (inl "VERDICT: SAFE") None)
         "hello" fresh)
  = Return {| model_name := "Claude Sonnet 4";
              safe := false;
              concerns := ["Requests weapon instructions."];
              reasoning := reply_with_blank_line |} /\
  concern_as_worded reply_with_blank_line = [" Requests weapon instructions."] /\
  ["Requests weapon instructions."] <> concern_as_worded reply_with_blank_line.
Proof.
  split; [reflexivity|]. split; [reflexivity|]. split; [reflexivity|].
  discriminate.
Qed.

(** ** The [/analyze-all] handler and the dashboard *)

Section HandlerFacts.

Variable env : Env.

(** The handler, step by step: the three adapters in turn, each ending the
    call when it raises; then one reading of the clock for the row, the
    insertion, what follows the commit, and a second reading of the clock
    for the bundle. *)
Lemma analyze_all_models_run :
  forall request w,
    let text := content request in
    let sent :=
      requests_sent w ++
        [(claude_client, text); (openai_client, text);
         (together_client, text)] in
    analyze_all_models env request w =
      match adapter_outcome env claude_client "Claude Sonnet 4" text with
      | Raise e => (Raise e, sent_to claude_client text w)
      | Return c =>
      match adapter_outcome env openai_client "GPT 5.2 Thinking" text with
      | Raise e =>
          (Raise e, sent_to openai_client text (sent_to claude_client text w))
      | Return g =>
      match adapter_outcome env together_client "Llama 3.1 70B" text with
      | Raise e =>
          (Raise e,
           {| requests_sent := sent;
              test_results := test_results w;
              clock := clock w |})
      | Return l =>
          let row := row_of text (isoformat env (clock w)) c g l in
          match execute env row with
          | Some e =>
              (Raise e,
               {| requests_sent := sent;
                  test_results := test_results w;
                  clock := S (clock w) |})
          | None =>
              match close_and_print env text with
              | Some e =>
                  (Raise e,
                   {| requests_sent := sent;
                      test_results := test_results w ++ [row];
                      clock := S (clock w) |})
              | None =>
                  (Return {| bundle_content := text;
                             claude := c;
                             gpt5 := g;
                             llama := l;
                             consensus := evaluate_consensus c g l;
                             timestamp := isoformat env (S (clock w)) |},
                   {| requests_sent := sent;
                      test_results := test_results w ++ [row];
                      clock := S (S (clock w)) |})
              end
          end
      end end end.
Proof.
  intros request w text sent; subst text sent.
  unfold analyze_all_models, bind.
  rewrite (adapter_run env claude_client "Claude Sonnet 4" _ (or_introl eq_refl)).
  destruct (adapter_outcome env claude_client _ _) as [c | e];
    [| reflexivity].
  rewrite (adapter_run env openai_client "GPT 5.2 Thinking" _
             (or_intror (or_introl eq_refl))).
  destruct (adapter_outcome env openai_client _ _) as [g | e];
    [| reflexivity].
  rewrite (adapter_run env together_client "Llama 3.1 70B" _
             (or_intror (or_intror (or_introl eq_refl)))).
  unfold sent_to; cbn [requests_sent test_results clock].
  rewrite <- !app_assoc; cbn [app].
  destruct (adapter_outcome env together_client _ _) as [l | e];
    [| reflexivity].
  unfold store_results, bind, now_isoformat, insert_row, close_print, ret,
    row_of.
  cbn [requests_sent test_results clock].
  destruct (execute env _); [reflexivity|].
  destruct (close_and_print env _); reflexivity.
Qed.

(** The handler sends the content to Claude first, whatever the content is
    and whatever happens afterwards. *)
Lemma analyze_all_models_first_request :
  forall request w,
  exists out w' later,
    analyze_all_models env request w = (out, w') /\
    requests_sent w' =
      requests_sent w ++ (claude_client, content request) :: later.
Proof.
  intros request w.
  rewrite analyze_all_models_run; cbv zeta.
  destruct (adapter_outcome env claude_client _ _);
    [| eexists; eexists; exists []; split; reflexivity].
  destruct (adapter_outcome env openai_client _ _);
    [| eexists; eexists; eexists; split;
       [reflexivity | cbn; rewrite <- app_assoc; reflexivity]].
  destruct (adapter_outcome env together_client _ _);
    [| eexists; eexists; eexists; split; reflexivity].
  destruct (execute env _); [eexists; eexists; eexists; split; reflexivity|].
  destruct (close_and_print env _);
    eexists; eexists; eexists; split; reflexivity.
Qed.

(** When every provider call raises or returns a text, the content goes
    to the three providers, in this order. *)
Lemma analyze_all_models_requests :
  forall request w,
    (forall c, create env c (content request) <> inl None) ->
    exists out w',
      analyze_all_models env request w = (out, w') /\
      requests_sent w' =
        requests_sent w ++
          [(claude_client, content request); (openai_client, content request);
           (together_client, content request)].
Proof.
  intros request w Hcontent.
  rewrite analyze_all_models_run; cbv zeta.
  destruct (adapter_outcome_with_content env claude_client "Claude Sonnet 4"
              _ (Hcontent claude_client)) as (c & ->).
  destruct (adapter_outcome_with_content env openai_client "GPT 5.2 Thinking"
              _ (Hcontent openai_client)) as (g & ->).
  destruct (adapter_outcome_with_content env together_client "Llama 3.1 70B"
              _ (Hcontent together_client)) as (l & ->).
  destruct (execute env _); [eexists; eexists; split; reflexivity|].
  destruct (close_and_print env _); eexists; eexists; split; reflexivity.
Qed.

End HandlerFacts.

(** C7, as the code has it.  Text that is empty or all whitespace is turned
    away by the dashboard: [analyze_prompt] answers with its fixed message
    and leaves the world as it was, so that neither the API nor a provider is
    reached.  The API handler has no such check: it sends the text to
    Claude first, and to all three providers when every provider call
    raises or returns a text. *)
Theorem blank_prompt_rejected_by_dashboard :
  forall prompt,
    whitespace_only prompt = true ->
    (forall post_json w,
       analyze_prompt post_json prompt w
         = (Return "Please enter a prompt to analyze.", w))
    /\
    (forall env w,
     exists out w' later,
       analyze_all_models env {| content := prompt |} w = (out, w') /\
       requests_sent w' = requests_sent w ++ (claude_client, prompt) :: later)
    /\
    (forall env w,
       (forall c, create env c prompt <> inl None) ->
       exists out w',
         analyze_all_models env {| content := prompt |} w = (out, w') /\
         requests_sent w' =
           requests_sent w ++
             [(claude_client, prompt); (openai_client, prompt);
              (together_client, prompt)]).
Proof.
  intros prompt Hblank; split; [| split].
  - intros post_json w; unfold analyze_prompt.
    rewrite (strip_whitespace_only prompt Hblank); reflexivity.
  - intros env w.
    exact (analyze_all_models_first_request env {| content := prompt |} w).
  - intros env w Hcontent.
    exact (analyze_all_models_requests env {| content := prompt |} w Hcontent).
Qed.

(** The dashboard in front of a working API, given three spaces. *)
Lemma blank_prompt_rejected_by_dashboard_witness :
  analyze_prompt
    (post_to_api (scripted (inl "VERDICT: SAFE") (inl "VERDICT: SAFE")
                    (inl "VERDICT: SAFE") None))
    "   " fresh
  = (Return "Please enter a prompt to analyze.", fresh).
Proof.
  apply (blank_prompt_rejected_by_dashboard "   " eq_refl).
Defined.

(** C7, as worded, fails on the handler itself: given three spaces it calls
    the three providers and returns a bundle. *)
Lemma analyze_all_models_blank_counterexample :
  whitespace_only "   " = true /\
  exists bundle w',
    analyze_all_models
      (scripted (inl "VERDICT: SAFE") (inl "VERDICT: SAFE")
         (inl "VERDICT: SAFE") None)
      {| content := "   " |} fresh = (Return bundle, w') /\
    verdict (consensus bundle) = "SAFE" /\
    requests_sent w' =
      [(claude_client, "   "); (openai_client, "   "); (together_client, "   ")].
Proof.
  split; [reflexivity|].
  eexists; eexists; split; [cbv; reflexivity|].
  split; reflexivity.
Qed.




(** * Further properties of the code *)

(** ** The verdict extractor: case, surrounding whitespace, later lines *)

Section ExtractorFacts.

Lemma whitespace_only_upper :
  forall s, whitespace_only (upper s) = whitespace_only s.
Proof.
  induction s as [| c s IH]; simpl; [reflexivity|].
  now rewrite isspace_upper_char, IH.
Qed.

Lemma lstrip_app :
  forall s t,
    lstrip (s ++ t) =
      if whitespace_only s then lstrip t else (lstrip s ++ t)%string.
Proof.
  induction s as [| c s IH]; intros t; simpl; [reflexivity|].
  destruct (isspace c); simpl; [apply IH | reflexivity].
Qed.

Lemma rstrip_whitespace_only :
  forall s, whitespace_only s = true -> rstrip s = EmptyString.
Proof.
  induction s as [| c s IH]; simpl; [reflexivity|].
  intros H; apply andb_prop in H; destruct H as [Hc Hs].
  now rewrite (IH Hs), Hc.
Qed.

Lemma rstrip_app_whitespace :
  forall s ws, whitespace_only ws = true -> rstrip (s ++ ws) = rstrip s.
Proof.
  induction s as [| c s IH]; intros ws Hws; simpl.
  - now apply rstrip_whitespace_only.
  - now rewrite (IH ws Hws).
Qed.

(** Whitespace around a text does not survive [strip]. *)
Lemma strip_app_whitespace :
  forall before s after,
    whitespace_only before = true -> whitespace_only after = true ->
    strip (before ++ s ++ after) = strip s.
Proof.
  intros before s after Hb Ha; unfold strip.
  rewrite lstrip_app, Hb, lstrip_app.
  destruct (whitespace_only s) eqn:Hs.
  - rewrite (lstrip_whitespace_only after Ha), (lstrip_whitespace_only s Hs).
    reflexivity.
  - now apply rstrip_app_whitespace.
Qed.

(** The first line of a first line is that line. *)
Lemma line1_idempotent : forall s, line1 (line1 s) = line1 s.
Proof.
  induction s as [| c s IH]; [reflexivity|].
  rewrite hd_split_String.
  destruct (Ascii.eqb c LF) eqn:Ec; [reflexivity|].
  now rewrite hd_split_String, Ec, IH.
Qed.

(** Trimming on the left stays within a first line that is not blank. *)
Lemma line1_lstrip :
  forall s, whitespace_only (line1 s) = false ->
            line1 (lstrip s) = lstrip (line1 s).
Proof.
  induction s as [| c s IH]; intros H; [discriminate H|].
  rewrite hd_split_String in H |- *.
  destruct (Ascii.eqb c LF) eqn:Ec; [discriminate H|].
  simpl in H |- *.
  destruct (isspace c); simpl in H.
  - now apply IH.
  - now rewrite hd_split_String, Ec.
Qed.

Lemma prefix_line1_of_rstrip :
  forall s q,
    String.prefix q (line1 (rstrip s)) = true ->
    String.prefix q (line1 s) = true.
Proof.
  induction s as [| c s IH]; intros q H; [exact H|].
  destruct q as [| d q]; [apply prefix_empty|].
  simpl rstrip in H.
  destruct (isspace c && is_empty (rstrip s)); [discriminate H|].
  rewrite hd_split_String in H |- *.
  destruct (Ascii.eqb c LF); [exact H|].
  simpl in H |- *.
  destruct (ascii_dec d c); [now apply IH | exact H].
Qed.

Lemma contains_line1_of_rstrip :
  forall s p,
    starts_nonspace p = true ->
    contains p (line1 (rstrip s)) = true ->
    contains p (line1 s) = true.
Proof.
  induction s as [| c s IH]; intros p Hp H; [exact H|].
  pose proof (prefix_line1_of_rstrip (String c s) p) as Hpre.
  simpl rstrip in H, Hpre.
  destruct (isspace c && is_empty (rstrip s)).
  - simpl hd in H; now rewrite contains_empty in H.
  - rewrite hd_split_String in H |- *; rewrite !hd_split_String in Hpre.
    destruct (Ascii.eqb c LF); [exact H|].
    rewrite contains_String in H |- *.
    apply orb_prop in H; destruct H as [H | H].
    + now rewrite (Hpre H).
    + rewrite (IH p Hp H); apply orb_true_r.
Qed.

(** For a marker that begins and ends with a character that is not
    whitespace, trimming on the right does not change whether the first
    line carries it. *)
Lemma contains_line1_rstrip_eq :
  forall s p,
    starts_nonspace p = true -> rstrip p = p ->
    contains p (line1 (rstrip s)) = contains p (line1 s).
Proof.
  intros s p Hstart Hend.
  destruct (contains p (line1 s)) eqn:E.
  - now apply contains_line1_rstrip.
  - destruct (contains p (line1 (rstrip s))) eqn:E'; [| reflexivity].
    now rewrite (contains_line1_of_rstrip s p Hstart E') in E.
Qed.

(** When the first line of a text is not blank, a marker is on the first
    line of the trimmed text exactly when it is on the trimmed first
    line. *)
Lemma contains_line1_strip_first :
  forall s p,
    starts_nonspace p = true -> rstrip p = p ->
    whitespace_only (line1 s) = false ->
    contains p (line1 (strip s)) = contains p (line1 (strip (line1 s))).
Proof.
  intros s p Hstart Hend Hline; unfold strip.
  rewrite !contains_line1_rstrip_eq by assumption.
  rewrite line1_lstrip by assumption.
  rewrite line1_lstrip by now rewrite line1_idempotent.
  now rewrite line1_idempotent.
Qed.

End ExtractorFacts.

(** X1. The verdict does not depend on letter case: two replies with the
    same upper-case form get the same verdict. *)
Theorem extract_verdict_case_insensitive :
  forall reply reply',
    upper reply = upper reply' ->
    extract_verdict reply = extract_verdict reply'.
Proof.
  intros reply reply' H; unfold extract_verdict.
  now rewrite !first_line_upper, H.
Qed.

Lemma extract_verdict_case_insensitive_witness :
  extract_verdict "Verdict: Unsafe" = extract_verdict "vERDICT: uNSAFE".
Proof.
  apply extract_verdict_case_insensitive; reflexivity.
Defined.

(** X2. Whitespace before and after a reply, blank lines included, does
    not change its verdict. *)
Theorem extract_verdict_ignores_surrounding_whitespace :
  forall before reply after,
    whitespace_only before = true -> whitespace_only after = true ->
    extract_verdict (before ++ reply ++ after) = extract_verdict reply.
Proof.
  intros before reply after Hb Ha; unfold extract_verdict, first_line.
  now rewrite strip_app_whitespace.
Qed.

Lemma extract_verdict_ignores_surrounding_whitespace_witness :
  extract_verdict
    (String LF (String LF "  ") ++ "VERDICT: UNSAFE" ++ String LF " ")
  = extract_verdict "VERDICT: UNSAFE".
Proof.
  apply extract_verdict_ignores_surrounding_whitespace; reflexivity.
Defined.

(** X3. When the first line of a reply is not blank, that line alone
    decides the verdict: nothing on the later lines, a marker included,
    is taken into account. *)
Theorem extract_verdict_first_line_only :
  forall reply,
    whitespace_only (line1 reply) = false ->
    extract_verdict reply = extract_verdict (line1 reply).
Proof.
  intros reply Hline; unfold extract_verdict.
  rewrite !first_line_upper.
  assert (whitespace_only (line1 (upper reply)) = false) as Hupper
    by now rewrite <- upper_hd_split, whitespace_only_upper.
  rewrite (upper_hd_split reply).
  rewrite <- !(contains_line1_strip_first (upper reply)) by easy.
  reflexivity.
Qed.

Lemma extract_verdict_first_line_only_witness :
  extract_verdict ("I think so." ++ String LF "VERDICT: SAFE") = "unknown".
Proof.
  rewrite extract_verdict_first_line_only; reflexivity.
Defined.

(** ** The consensus resolver: confidence *)

(** X4. The confidence is "high" exactly when the three models agree, and
    "uncertain" exactly when the verdict is REVIEW_REQUIRED. *)
Theorem evaluate_consensus_confidence :
  forall c g l : ModelResponse,
    (confidence (evaluate_consensus c g l) = "high"
     <-> safe c = safe g /\ safe g = safe l)
    /\
    (confidence (evaluate_consensus c g l) = "uncertain"
     <-> verdict (evaluate_consensus c g l) = "REVIEW_REQUIRED").
Proof.
  intros c g l; unfold evaluate_consensus, safe_votes.
  destruct c as [? [] ? ?], g as [? [] ? ?], l as [? [] ? ?]; simpl;
    split; split; intros H;
    first [ reflexivity
          | discriminate H
          | split; reflexivity
          | destruct H as [H1 H2]; discriminate ].
Qed.

(** ** The model adapters: when they vote safe, and what they return *)

Lemma extract_verdict_safe_iff :
  forall reply,
    (extract_verdict reply =? "safe") =
      contains "VERDICT: SAFE" (first_line reply).
Proof.
  intros reply; unfold extract_verdict.
  destruct (contains "VERDICT: SAFE" (first_line reply)); [reflexivity|].
  destruct (contains "VERDICT: UNSAFE" (first_line reply)); reflexivity.
Qed.

Lemma adapter_outcome_safe_iff :
  forall env c name content r,
    adapter_outcome env c name content = Return r ->
    (safe r = true
     <-> exists reply,
           create env c content = inl (Some reply) /\
           contains "VERDICT: SAFE" (first_line reply) = true).
Proof.
  intros env c name content r Hr.
  destruct (adapter_outcome_Return env c name content r Hr)
    as [(reply & Hcreate & ->) | (e & Hcreate & ->)];
    rewrite Hcreate; cbn [safe parsed fail_closed].
  - rewrite extract_verdict_safe_iff; split.
    + intros H; now exists reply.
    + intros (reply' & Heq & H); now injection Heq as <-.
  - split; [discriminate | intros (reply & Heq & _); discriminate Heq].
Qed.

Lemma adapter_outcome_reasoning_length :
  forall env c name content r,
    adapter_outcome env c name content = Return r ->
    String.length (reasoning r) <= 200.
Proof.
  intros env c name content r Hr.
  destruct (adapter_outcome_Return env c name content r Hr)
    as [(reply & _ & ->) | (e & _ & ->)].
  - apply length_slice_to.
  - cbv; lia.
Qed.

(** What [adapter content w = (Return r, w')] says about [r]. *)
Lemma adapter_returned :
  forall env c name adapter,
    In (c, name, adapter) (adapters env) ->
    forall content w r w',
      adapter content w = (Return r, w') ->
      adapter_outcome env c name content = Return r.
Proof.
  intros env c name adapter Hin content w r w' Hrun.
  rewrite (adapter_run env c name adapter Hin) in Hrun.
  now injection Hrun as -> _.
Qed.

(** X5. A result returned by an adapter has safe=true exactly when the
    provider call returned a text whose first line carries the SAFE marker;
    a result returned after a provider error, or for a reply without that
    marker, is unsafe. *)
Theorem adapters_fail_closed :
  forall env c name adapter,
    In (c, name, adapter) (adapters env) ->
    forall content w r w',
      adapter content w = (Return r, w') ->
      (safe r = true <->
       exists reply,
         create env c content = inl (Some reply) /\
         contains "VERDICT: SAFE" (first_line reply) = true).
Proof.
  intros env c name adapter Hin content w r w' Hrun.
  apply (adapter_outcome_safe_iff env c name content).
  exact (adapter_returned env c name adapter Hin content w r w' Hrun).
Qed.

(** The Llama adapter on a reply that praises safety without the marker. *)
Lemma adapters_fail_closed_witness :
  exists r w',
    analyze_with_llama
      (scripted (inl "VERDICT: SAFE") (inl "VERDICT: SAFE")
         (inl "This is safe.") None)
      "hello" fresh = (Return r, w') /\
    safe r <> true.
Proof.
  destruct (analyze_with_llama
              (scripted (inl "VERDICT: SAFE") (inl "VERDICT: SAFE")
                 (inl "This is safe.") None)
              "hello" fresh) as [[r | e] w'] eqn:Hrun.
  - exists r, w'; split; [reflexivity|].
    destruct (adapters_fail_closed _ together_client "Llama 3.1 70B" _
                (or_intror (or_intror (or_introl eq_refl))) _ _ _ _ Hrun)
      as [Hmarker _].
    intros H; destruct (Hmarker H) as (reply & Heq & Hin).
    injection Heq as <-; discriminate Hin.
  - cbv in Hrun; discriminate Hrun.
Defined.

(** X6. A result returned by an adapter carries the adapter's own model
    name, a reasoning of at most 200 characters and at most one concern; a
    safe result carries no concern.  This holds for the parsed reply and
    for the fail-closed result alike. *)
Theorem adapters_result_shape :
  forall env c name adapter,
    In (c, name, adapter) (adapters env) ->
    forall content w r w',
      adapter content w = (Return r, w') ->
      model_name r = name /\
      String.length (reasoning r) <= 200 /\
      List.length (concerns r) <= 1 /\
      (safe r = true -> concerns r = []).
Proof.
  intros env c name adapter Hin content w r w' Hrun.
  apply (adapter_returned env c name adapter Hin) in Hrun.
  split; [| split; [exact (adapter_outcome_reasoning_length _ _ _ _ _ Hrun)|]].
  - destruct (adapter_outcome_Return env c name content r Hrun)
      as [(reply & _ & ->) | (e & _ & ->)]; reflexivity.
  - destruct (adapter_outcome_Return env c name content r Hrun)
      as [(reply & _ & ->) | (e & _ & ->)].
    + rewrite parsed_concerns; cbn [safe parsed].
      destruct (extract_verdict_range reply) as [E | [E | E]]; rewrite E;
        cbn [String.eqb Ascii.eqb Bool.eqb]; cbv iota.
      * split; [apply Nat.le_0_l | reflexivity].
      * destruct (is_empty _); cbn [List.length];
          (split; [lia | discriminate]).
      * split; [apply Nat.le_0_l | reflexivity].
    + split; [apply Nat.le_refl | discriminate].
Qed.

(** The Claude adapter on a reply of 300 characters. *)
Lemma adapters_result_shape_witness :
  exists r w',
    analyze_with_claude
      (scripted (inl (repeat_str "VERDICT: SAFE. " 20)) (inl "VERDICT: SAFE")
         (inl "VERDICT: SAFE") None)
      "hello" fresh = (Return r, w') /\
    model_name r = "Claude Sonnet 4" /\
    String.length (reasoning r) <= 200.
Proof.
  destruct (analyze_with_claude
              (scripted (inl (repeat_str "VERDICT: SAFE. " 20))
                 (inl "VERDICT: SAFE") (inl "VERDICT: SAFE") None)
              "hello" fresh) as [[r | e] w'] eqn:Hrun.
  - exists r, w'; split; [reflexivity|].
    destruct (adapters_result_shape _ claude_client "Claude Sonnet 4" _
                (or_introl eq_refl) _ _ _ _ Hrun)
      as (Hname & Hlen & _).
    split; [exact Hname | exact Hlen].
  - cbv in Hrun; discriminate Hrun.
Defined.

(** ** The endpoints: what they send, read and write *)

(** X7. Each single-model endpoint sends one request, to its own provider,
    and writes nothing to the table, however it ends.  [/analyze-claude]
    always returns the result of its adapter with the request text and one
    reading of the clock.  [/analyze-gpt5] and [/analyze-llama] do so when
    the provider call raised or returned a text; when the content they
    got is [None] they raise the [AttributeError] of their adapter. *)
Theorem single_model_endpoints_do_not_store :
  forall env request w,
    (exists r w',
       analyze_content env request w = (Return r, w') /\
       fst (analyze_with_claude env (content request) w)
         = Return (claude_response r) /\
       response_content r = content request /\
       response_timestamp r = isoformat env (clock w) /\
       requests_sent w'
         = requests_sent w ++ [(claude_client, content request)] /\
       test_results w' = test_results w)
    /\
    (exists out w',
       analyze_gpt5_content env request w = (out, w') /\
       requests_sent w'
         = requests_sent w ++ [(openai_client, content request)] /\
       test_results w' = test_results w /\
       match create env openai_client (content request) with
       | inl None => out = Raise attribute_error
       | _ =>
           exists r,
             out = Return r /\
             fst (analyze_with_gpt5 env (content request) w)
               = Return (gpt5_response r) /\
             gpt5_content r = content request /\
             gpt5_timestamp r = isoformat env (clock w)
       end)
    /\
    (exists out w',
       analyze_llama_content env request w = (out, w') /\
       requests_sent w'
         = requests_sent w ++ [(together_client, content request)] /\
       test_results w' = test_results w /\
       match create env together_client (content request) with
       | inl None => out = Raise attribute_error
       | _ =>
           exists r,
             out = Return r /\
             fst (analyze_with_llama env (content request) w)
               = Return (llama_response r) /\
             llama_content r = content request /\
             llama_timestamp r = isoformat env (clock w)
       end).
Proof.
  intros env request w.
  unfold analyze_content, analyze_gpt5_content, analyze_llama_content, bind.
  rewrite (adapter_run env claude_client _ _ (or_introl eq_refl)).
  rewrite (adapter_run env openai_client _ _ (or_intror (or_introl eq_refl))).
  rewrite (adapter_run env together_client _ _
             (or_intror (or_intror (or_introl eq_refl)))).
  unfold adapter_outcome, now_isoformat, ret, sent_to.
  split; [| split].
  - pose proof (claude_has_content env (content request)) as Hclaude.
    destruct (create env claude_client (content request)) as [[reply |] | e];
      [| now elim Hclaude |];
      eexists; eexists; cbn [fst requests_sent test_results clock];
      repeat split.
  - destruct (create env openai_client (content request)) as [[reply |] | e];
      eexists; eexists; cbn [fst requests_sent test_results clock];
      (split; [reflexivity|]); (split; [reflexivity|]);
      (split; [reflexivity|]);
      first [reflexivity | eexists; repeat split].
  - destruct (create env together_client (content request))
      as [[reply |] | e];
      eexists; eexists; cbn [fst requests_sent test_results clock];
      (split; [reflexivity|]); (split; [reflexivity|]);
      (split; [reflexivity|]);
      first [reflexivity | eexists; repeat split].
Qed.

(** X8. The row the handler stores is made of the very results it
    returns: when it returns a bundle, the table has grown by one row, put
    last, built from the bundle's three results and the consensus over
    them, stamped with the clock reading just before the one in the bundle.
    When it raises, the table is as it was, unless the exception comes from
    what [store_results] does after the commit: then the row is already
    there. *)
Theorem analyze_all_models_stores_what_it_returns :
  forall env request w,
    match analyze_all_models env request w with
    | (Return b, w') =>
        bundle_content b = content request /\
        consensus b = evaluate_consensus (claude b) (gpt5 b) (llama b) /\
        timestamp b = isoformat env (S (clock w)) /\
        test_results w' =
          test_results w ++
            [row_of (content request) (isoformat env (clock w))
               (claude b) (gpt5 b) (llama b)]
    | (Raise e, w') =>
        test_results w' = test_results w
        \/ (close_and_print env (content request) = Some e /\
            exists c g l,
              test_results w' =
                test_results w ++
                  [row_of (content request) (isoformat env (clock w)) c g l])
    end.
Proof.
  intros env request w.
  rewrite analyze_all_models_run; cbv zeta.
  destruct (adapter_outcome env claude_client _ _) as [c | e]; [| now left].
  destruct (adapter_outcome env openai_client _ _) as [g | e]; [| now left].
  destruct (adapter_outcome env together_client _ _) as [l | e]; [| now left].
  destruct (execute env _); [now left|].
  destruct (close_and_print env _) as [e |].
  - right; split; [reflexivity|]; now exists c, g, l.
  - repeat split.
Qed.

(** A [print] that fails after the commit: the handler raises and the row
    is in the table all the same. *)
Lemma analyze_all_models_raises_after_commit :
  fst (analyze_all_models
         (with_failing_print
            (scripted (inl "VERDICT: SAFE") (inl "VERDICT: SAFE")
               (inl "VERDICT: SAFE") None)
            (Exception "Broken pipe"))
         {| content := "hello" |} fresh)
  = Raise (Exception "Broken pipe") /\
  map row_prompt
    (test_results
       (snd (analyze_all_models
               (with_failing_print
                  (scripted (inl "VERDICT: SAFE") (inl "VERDICT: SAFE")
                     (inl "VERDICT: SAFE") None)
                  (Exception "Broken pipe"))
               {| content := "hello" |} fresh)))
  = ["hello"].
Proof. split; reflexivity. Qed.

(** A GPT completion without content: the handler raises before Llama is
    called and before anything is stored. *)
Lemma analyze_all_models_raises_without_content :
  analyze_all_models
    (gpt5_without_content
       (scripted (inl "VERDICT: SAFE") (inl "VERDICT: SAFE")
          (inl "VERDICT: SAFE") None))
    {| content := "hello" |} fresh
  = (Raise attribute_error,
     {| requests_sent := [(claude_client, "hello"); (openai_client, "hello")];
        test_results := [];
        clock := 0 |}).
Proof. reflexivity. Qed.

(** A row built from three results with short reasonings is coherent. *)
Lemma coherent_row_of :
  forall prompt time c g l,
    String.length (reasoning c) <= 200 ->
    String.length (reasoning g) <= 200 ->
    String.length (reasoning l) <= 200 ->
    coherent_row (row_of prompt time c g l).
Proof.
  intros prompt time c g l Hc Hg Hl.
  unfold coherent_row, row_of, evaluate_consensus, safe_votes.
  cbn [claude_safe gpt5_safe llama_safe consensus_verdict row_flagged_by
       claude_reasoning gpt5_reasoning llama_reasoning].
  destruct c as [? [] ? ?], g as [? [] ? ?], l as [? [] ? ?];
    cbn in Hc, Hg, Hl |- *;
    repeat split; intros; try assumption; try discriminate; try lia.
Qed.

(** X9. The handler keeps the table coherent: if every row agrees with
    itself (flags 0 or 1, verdict matching the number of safe flags,
    dissenters listed exactly when the verdict is not SAFE, reasoning of at
    most 200 characters), so does every row after a call, whatever the
    providers and the database did. *)
Theorem analyze_all_models_keeps_rows_coherent :
  forall env request w,
    Forall coherent_row (test_results w) ->
    Forall coherent_row (test_results (snd (analyze_all_models env request w))).
Proof.
  intros env request w Hw.
  rewrite analyze_all_models_run; cbv zeta.
  destruct (adapter_outcome env claude_client _ _) as [c | e] eqn:Hc;
    [| exact Hw].
  destruct (adapter_outcome env openai_client _ _) as [g | e] eqn:Hg;
    [| exact Hw].
  destruct (adapter_outcome env together_client _ _) as [l | e] eqn:Hl;
    [| exact Hw].
  assert (Forall coherent_row
            (test_results w ++
               [row_of (content request) (isoformat env (clock w)) c g l]))
    as Hgrown.
  { apply Forall_app; split; [exact Hw|].
    apply Forall_cons; [| apply Forall_nil].
    apply coherent_row_of;
      eapply adapter_outcome_reasoning_length; eassumption. }
  destruct (execute env _); [exact Hw|].
  destruct (close_and_print env _); exact Hgrown.
Qed.

(** One call on an empty table, with one provider down. *)
Lemma analyze_all_models_keeps_rows_coherent_witness :
  Forall coherent_row
    (test_results
       (snd (analyze_all_models
               (scripted (inr (Exception "timeout")) (inl "VERDICT: SAFE")
                  (inl "VERDICT: UNSAFE") None)
               {| content := "hello" |} fresh))).
Proof.
  apply analyze_all_models_keeps_rows_coherent.
  apply Forall_nil.
Defined.

(** ** The queries *)

Section QueryFacts.

Lemma insert_desc_perm :
  forall x rows, Permutation (insert_desc x rows) (x :: rows).
Proof.
  intros x rows; induction rows as [| y rows IH]; simpl; [reflexivity|].
  destruct (String.leb _ _); [reflexivity|].
  rewrite IH; apply perm_swap.
Qed.

Lemma order_by_timestamp_desc_perm :
  forall rows, Permutation (order_by_timestamp_desc rows) rows.
Proof.
  induction rows as [| x rows IH]; simpl; [reflexivity|].
  rewrite insert_desc_perm; now apply perm_skip.
Qed.

Lemma insert_desc_HdRel :
  forall y x rows,
    newer_first y x -> HdRel newer_first y rows ->
    HdRel newer_first y (insert_desc x rows).
Proof.
  intros y x [| z rows] Hyx Hy; simpl; [now constructor|].
  destruct (String.leb _ _); constructor; [exact Hyx|].
  now inversion Hy.
Qed.

Lemma insert_desc_sorted :
  forall x rows,
    Sorted newer_first rows -> Sorted newer_first (insert_desc x rows).
Proof.
  intros x rows; induction rows as [| y rows IH]; intros Hs; simpl.
  - now repeat constructor.
  - destruct (String.leb (row_timestamp (snd y)) (row_timestamp (snd x)))
      eqn:E.
    + constructor; [exact Hs | now constructor].
    + inversion Hs as [| ? ? Hs' Hhd]; subst.
      constructor; [now apply IH|].
      apply insert_desc_HdRel; [| exact Hhd].
      unfold newer_first.
      destruct (String.leb_total (row_timestamp (snd y))
                  (row_timestamp (snd x))) as [H | H]; [congruence | exact H].
Qed.

Lemma order_by_timestamp_desc_sorted :
  forall rows, Sorted newer_first (order_by_timestamp_desc rows).
Proof.
  induction rows as [| x rows IH]; simpl; [constructor|].
  now apply insert_desc_sorted.
Qed.

Lemma combine_seq_app :
  forall (rows : list Row) r start,
    combine (seq start (List.length (rows ++ [r]))) (rows ++ [r]) =
      combine (seq start (List.length rows)) rows
      ++ [(start + List.length rows, r)].
Proof.
  induction rows as [| x rows IH]; intros r start; simpl.
  - now rewrite Nat.add_0_r.
  - now rewrite IH, Nat.add_succ_r.
Qed.

(** A new row gets the next id and the old rows keep theirs. *)
Lemma with_ids_app :
  forall rows r,
    with_ids (rows ++ [r]) = with_ids rows ++ [(S (List.length rows), r)].
Proof. intros rows r; unfold with_ids; apply combine_seq_app. Qed.

Lemma combine_seq_fst :
  forall (rows : list Row) start,
    map fst (combine (seq start (List.length rows)) rows)
      = seq start (List.length rows).
Proof.
  induction rows as [| x rows IH]; intros start; simpl; [reflexivity|].
  now rewrite IH.
Qed.

Lemma combine_seq_snd :
  forall (rows : list Row) start,
    map snd (combine (seq start (List.length rows)) rows) = rows.
Proof.
  induction rows as [| x rows IH]; intros start; simpl; [reflexivity|].
  now rewrite IH.
Qed.

(** X10. [get_all_results] returns every stored row exactly once, with
    ids 1, 2, ... in the order of insertion, and lists them by
    non-increasing timestamp; it leaves the table as it is. *)
Theorem get_all_results_complete_and_sorted :
  forall w,
  exists rows,
    get_all_results w = (Return rows, w) /\
    Permutation rows (with_ids (test_results w)) /\
    map fst (with_ids (test_results w))
      = seq 1 (List.length (test_results w)) /\
    map snd (with_ids (test_results w)) = test_results w /\
    Sorted newer_first rows.
Proof.
  intros w; eexists; split; [reflexivity|].
  split; [apply order_by_timestamp_desc_perm|].
  split; [apply combine_seq_fst|].
  split; [apply combine_seq_snd|].
  apply order_by_timestamp_desc_sorted.
Qed.

Lemma length_filter_with_ids :
  forall (p : Row -> bool) (rows : list Row) start,
    List.length
      (filter (fun r => p (snd r)) (combine (seq start (List.length rows)) rows))
    = List.length (filter p rows).
Proof.
  induction rows as [| x rows IH]; intros start; simpl; [reflexivity|].
  destruct (p x); simpl; now rewrite IH.
Qed.

Lemma Sorted_map :
  forall (A B : Type) (R : A -> A -> Prop) (R' : B -> B -> Prop) (f : A -> B),
    (forall a b, R a b -> R' (f a) (f b)) ->
    forall l, Sorted R l -> Sorted R' (map f l).
Proof.
  intros A B R R' f Hf l; induction 1 as [| a l _ IH Hhd]; simpl.
  - constructor.
  - constructor; [exact IH|].
    destruct Hhd; simpl; constructor; now apply Hf.
Qed.

(** X11. [get_disagreements_only] returns exactly the stored rows whose
    consensus verdict is REVIEW_REQUIRED, each with its id, prompt, list of
    dissenters and timestamp, by non-increasing timestamp; their number is
    the number of such rows. *)
Theorem get_disagreements_only_exact :
  forall w,
  exists found,
    get_disagreements_only w = (Return found, w) /\
    (forall id prompt v flagged time,
       In (id, prompt, v, flagged, time) found <->
       exists row,
         In (id, row) (with_ids (test_results w)) /\
         consensus_verdict row = "REVIEW_REQUIRED" /\
         prompt = row_prompt row /\ v = "REVIEW_REQUIRED" /\
         flagged = row_flagged_by row /\ time = row_timestamp row) /\
    List.length found = count_verdict "REVIEW_REQUIRED" (test_results w) /\
    Sorted (fun a b => String.leb (snd b) (snd a) = true) found.
Proof.
  intros w; eexists; split; [reflexivity|].
  split; [| split].
  - intros id prompt v flagged time; rewrite in_map_iff; split.
    + intros ([id' row] & Heq & Hin); cbn [fst snd] in Heq.
      injection Heq as <- <- <- <- <-.
      apply (Permutation_in _ (order_by_timestamp_desc_perm _)) in Hin.
      apply filter_In in Hin; destruct Hin as [Hin Hv]; cbn [snd] in Hv.
      apply String.eqb_eq in Hv.
      exists row; repeat split; assumption.
    + intros (row & Hin & Hv & -> & -> & -> & ->).
      exists (id, row); cbn [fst snd]; split; [now rewrite Hv|].
      apply (Permutation_in _
               (Permutation_sym (order_by_timestamp_desc_perm _))).
      apply filter_In; split; [exact Hin|].
      cbn [snd]; now apply String.eqb_eq.
  - rewrite length_map.
    rewrite (Permutation_length (order_by_timestamp_desc_perm _)).
    apply (length_filter_with_ids
             (fun r => consensus_verdict r =? "REVIEW_REQUIRED")).
  - apply (Sorted_map _ _ newer_first);
      [| apply order_by_timestamp_desc_sorted].
    intros a b H; exact H.
Qed.

End QueryFacts.

(** ** The statistics *)

Section StatsFacts.

Lemma count_verdict_cons :
  forall v r rows,
    count_verdict v (r :: rows) =
      (if consensus_verdict r =? v then 1 else 0) + count_verdict v rows.
Proof.
  intros v r rows; unfold count_verdict; simpl.
  destruct (consensus_verdict r =? v); reflexivity.
Qed.

Lemma count_verdict_app :
  forall v rows rows',
    count_verdict v (rows ++ rows')
      = count_verdict v rows + count_verdict v rows'.
Proof.
  intros v rows rows'; unfold count_verdict.
  now rewrite filter_app, length_app.
Qed.

Lemma count_verdict_zero :
  forall v rows,
    count_verdict v rows = 0 <-> ~ In v (map consensus_verdict rows).
Proof.
  intros v rows; induction rows as [| r rows IH].
  - split; [intros _ [] | reflexivity].
  - rewrite count_verdict_cons; simpl.
    destruct (String.eqb_spec (consensus_verdict r) v) as [E | E].
    + split; [discriminate | intros H; elim H; now left].
    + simpl; rewrite IH; split.
      * intros H [H' | H']; [now apply E | now apply H].
      * intros H H'; apply H; now right.
Qed.

Lemma dict_get_map_keys :
  forall (f : string -> nat) keys v,
    dict_get v (map (fun k => (k, f k)) keys) =
      if in_dec string_dec v keys then Some (f v) else None.
Proof.
  intros f keys v; induction keys as [| k keys IH]; simpl; [reflexivity|].
  destruct (String.eqb_spec k v) as [-> | E].
  - destruct (string_dec v v) as [Ev | N]; [reflexivity | now elim N].
  - rewrite IH.
    destruct (string_dec k v) as [E' | N]; [now elim E|].
    destruct (in_dec string_dec v keys); reflexivity.
Qed.

Lemma list_sum_map_add :
  forall (A : Type) (f g : A -> nat) l,
    list_sum (map (fun a => f a + g a) l)
      = list_sum (map f l) + list_sum (map g l).
Proof.
  intros A f g l; induction l as [| a l IH]; simpl; [reflexivity|].
  rewrite IH; lia.
Qed.

Lemma list_sum_indicator :
  forall k keys,
    NoDup keys -> In k keys ->
    list_sum (map (fun v => if k =? v then 1 else 0) keys) = 1.
Proof.
  intros k keys Hnd; induction Hnd as [| x keys Hx _ IH]; intros Hin.
  - destruct Hin.
  - simpl; destruct (String.eqb_spec k x) as [-> | E].
    + f_equal.
      clear IH Hin; induction keys as [| y keys IH]; [reflexivity|].
      simpl; destruct (String.eqb_spec x y) as [-> | _].
      * elim Hx; now left.
      * apply IH; intros H; apply Hx; now right.
    + destruct Hin as [-> | Hin]; [now elim E | now apply IH].
Qed.

Lemma list_sum_counts :
  forall keys rows,
    NoDup keys ->
    (forall r, In r rows -> In (consensus_verdict r) keys) ->
    list_sum (map (fun v => count_verdict v rows) keys) = List.length rows.
Proof.
  intros keys rows Hnd; induction rows as [| r rows IH]; intros Hkeys.
  - clear; induction keys as [| k keys IH]; [reflexivity | exact IH].
  - rewrite (map_ext _ _ (fun v => count_verdict_cons v r rows)).
    rewrite list_sum_map_add, list_sum_indicator, IH; trivial.
    + intros r' H; apply Hkeys; now right.
    + apply Hkeys; now left.
Qed.

(** X12. [get_stats]: the total is the number of stored rows; the
    dictionary has one key for each verdict that occurs, its value being
    the number of rows with that verdict, and no key for a verdict that
    does not occur; the values add up to the total. *)
Theorem get_stats_counts :
  forall w,
  exists stats,
    get_stats w = (Return stats, w) /\
    total_tests stats = List.length (test_results w) /\
    NoDup (map fst (by_verdict stats)) /\
    (forall v,
       dict_get v (by_verdict stats) =
         if count_verdict v (test_results w) =? 0 then None
         else Some (count_verdict v (test_results w)))%nat /\
    list_sum (map snd (by_verdict stats)) = total_tests stats.
Proof.
  intros w; eexists; split; [reflexivity|].
  cbn [total_tests by_verdict]; unfold group_by_verdict.
  split; [reflexivity|].
  split; [| split].
  - rewrite map_map; cbn [fst]; rewrite map_id; apply NoDup_nodup.
  - intros v; rewrite dict_get_map_keys.
    destruct (in_dec string_dec v _) as [Hin | Hin];
      rewrite nodup_In in Hin.
    + destruct (Nat.eqb_spec (count_verdict v (test_results w)) 0) as [E | _];
        [| reflexivity].
      now apply count_verdict_zero in E.
    + apply count_verdict_zero in Hin; now rewrite Hin.
  - rewrite map_map; cbn [snd].
    apply list_sum_counts; [apply NoDup_nodup|].
    intros r Hr; apply nodup_In, in_map, Hr.
Qed.

End StatsFacts.

(** ** The handler seen through the queries *)

Section HandlerAndQueries.

Variable env : Env.

Lemma dict_get_group_by_verdict :
  forall v rows,
    dict_get v (group_by_verdict rows) =
      (if count_verdict v rows =? 0 then None
       else Some (count_verdict v rows))%nat.
Proof.
  intros v rows; unfold group_by_verdict; rewrite dict_get_map_keys.
  destruct (in_dec string_dec v _) as [Hin | Hin]; rewrite nodup_In in Hin.
  - destruct (Nat.eqb_spec (count_verdict v rows) 0) as [E | _];
      [| reflexivity].
    now apply count_verdict_zero in E.
  - apply count_verdict_zero in Hin; now rewrite Hin.
Qed.

(** X13. A call of the handler that returns a bundle raises the total of
    [get_stats] by one and the count of the bundle's verdict by one, and
    leaves the other counts as they were.  A call that raises changes
    nothing in the statistics, unless the exception comes from what
    [store_results] does after the commit. *)
Theorem analyze_all_models_updates_stats :
  forall request w,
    match analyze_all_models env request w with
    | (Return b, w') =>
        exists before after,
          get_stats w = (Return before, w) /\
          get_stats w' = (Return after, w') /\
          total_tests after = S (total_tests before) /\
          (forall v,
             dict_get v (by_verdict after) =
               if verdict (consensus b) =? v
               then Some (S (match dict_get v (by_verdict before) with
                             | Some n => n
                             | None => 0
                             end))
               else dict_get v (by_verdict before))
    | (Raise e, w') =>
        fst (get_stats w') = fst (get_stats w)
        \/ close_and_print env (content request) = Some e
    end.
Proof.
  intros request w.
  rewrite analyze_all_models_run; cbv zeta.
  destruct (adapter_outcome env claude_client _ _) as [c | e]; [| now left].
  destruct (adapter_outcome env openai_client _ _) as [g | e]; [| now left].
  destruct (adapter_outcome env together_client _ _) as [l | e]; [| now left].
  destruct (execute env _); [now left|].
  destruct (close_and_print env _) as [e |]; [now right|].
  eexists; eexists; split; [reflexivity|]; split; [reflexivity|].
  cbn [total_tests by_verdict test_results consensus].
  split; [rewrite length_app; simpl; lia|].
  intros v; rewrite !dict_get_group_by_verdict, count_verdict_app.
  rewrite count_verdict_cons; cbn [consensus_verdict row_of].
  change (count_verdict v []) with 0.
  destruct (verdict _ =? v).
  - replace (count_verdict v (test_results w) + (1 + 0))
      with (S (count_verdict v (test_results w))) by lia.
    cbn [Nat.eqb].
    now destruct (count_verdict v (test_results w) =? 0)%nat eqn:E;
      [apply Nat.eqb_eq in E; rewrite E |].
  - now rewrite !Nat.add_0_r.
Qed.

(** X14. After a call of the handler that returns a bundle,
    [get_all_results] lists what it listed before together with the new
    row, which has the next id; the rows stored earlier keep their ids.
    After a call that raises it lists what it listed before, unless the
    exception comes from what [store_results] does after the commit. *)
Theorem analyze_all_models_row_retrievable :
  forall request w,
    match analyze_all_models env request w with
    | (Return b, w') =>
        exists before after,
          get_all_results w = (Return before, w) /\
          get_all_results w' = (Return after, w') /\
          Permutation after
            ((S (List.length (test_results w)),
              row_of (content request) (isoformat env (clock w))
                (claude b) (gpt5 b) (llama b)) :: before)
    | (Raise e, w') =>
        fst (get_all_results w') = fst (get_all_results w)
        \/ close_and_print env (content request) = Some e
    end.
Proof.
  intros request w.
  rewrite analyze_all_models_run; cbv zeta.
  destruct (adapter_outcome env claude_client _ _) as [c | e]; [| now left].
  destruct (adapter_outcome env openai_client _ _) as [g | e]; [| now left].
  destruct (adapter_outcome env together_client _ _) as [l | e]; [| now left].
  destruct (execute env _); [now left|].
  destruct (close_and_print env _) as [e |]; [now right|].
  eexists; eexists; split; [reflexivity|]; split; [reflexivity|].
  cbn [test_results claude gpt5 llama].
  rewrite order_by_timestamp_desc_perm, with_ids_app.
  rewrite Permutation_app_comm; cbn [app].
  apply perm_skip; symmetry; apply order_by_timestamp_desc_perm.
Qed.

End HandlerAndQueries.

(** ** The dashboard *)

Section DashboardFacts.

Lemma lstrip_starts_nonspace :
  forall s, whitespace_only s = false -> starts_nonspace (lstrip s) = true.
Proof.
  induction s as [| c s IH]; simpl; [discriminate|].
  destruct (isspace c) eqn:E; simpl; [exact IH | now rewrite E].
Qed.

(** A text is blank exactly when nothing is left of it after trimming. *)
Lemma is_empty_strip :
  forall s, is_empty (strip s) = whitespace_only s.
Proof.
  intros s; destruct (whitespace_only s) eqn:E.
  - now rewrite strip_whitespace_only.
  - unfold strip; apply lstrip_starts_nonspace in E.
    destruct (lstrip s) as [| c t]; [discriminate E|].
    simpl in E |- *; apply negb_true_iff in E; now rewrite E.
Qed.

Lemma append_empty_r : forall s, (s ++ "")%string = s.
Proof. induction s; simpl; congruence. Qed.

Lemma append_assoc :
  forall s t u, ((s ++ t) ++ u)%string = (s ++ t ++ u)%string.
Proof. induction s; intros; simpl; congruence. Qed.

Lemma fold_left_append :
  forall (A : Type) (step : string -> A -> string),
    (forall output a, exists added, step output a = (output ++ added)%string) ->
    forall l output,
    exists added, fold_left step l output = (output ++ added)%string.
Proof.
  intros A step Hstep l; induction l as [| a l IH]; intros output; simpl.
  - exists EmptyString; now rewrite append_empty_r.
  - destruct (Hstep output a) as (added & ->).
    destruct (IH (output ++ added)%string) as (added' & ->).
    exists (added ++ added')%string; apply append_assoc.
Qed.

(** X15. [view_disagreements] answers "No disagreements found yet."
    exactly when no stored row has the verdict REVIEW_REQUIRED; otherwise
    its text begins with a heading that gives the number of such rows.  It
    leaves the table as it is. *)
Theorem view_disagreements_heading :
  forall w,
  exists output,
    view_disagreements w = (Return output, w) /\
    (count_verdict "REVIEW_REQUIRED" (test_results w) = 0 ->
     output = "No disagreements found yet.") /\
    (count_verdict "REVIEW_REQUIRED" (test_results w) <> 0 ->
     exists entries,
       output =
         ("DISAGREEMENT CASES ("
          ++ str_of_nat (count_verdict "REVIEW_REQUIRED" (test_results w))
          ++ " total)" ++ String LF ""
          ++ repeat_str "=" 50 ++ String LF (String LF "")
          ++ entries)%string).
Proof.
  intros w.
  destruct (get_disagreements_only w) as [found_outcome w0] eqn:Hget.
  unfold get_disagreements_only in Hget; injection Hget as <- <-.
  unfold view_disagreements, bind, get_disagreements_only.
  match goal with
  | |- context [map ?f (order_by_timestamp_desc ?l)] =>
      assert (List.length (map f (order_by_timestamp_desc l))
              = count_verdict "REVIEW_REQUIRED" (test_results w)) as Hlen;
      [ rewrite length_map,
          (Permutation_length (order_by_timestamp_desc_perm _));
        apply (length_filter_with_ids
                 (fun r => consensus_verdict r =? "REVIEW_REQUIRED"))
      | destruct (map f (order_by_timestamp_desc l)) as [| d found] ]
  end.
  - eexists; split; [reflexivity|].
    split; [reflexivity | intros H; now elim H].
  - rewrite <- Hlen.
    match goal with
    | |- context [fold_left ?step ?l ?init] =>
        assert (forall output a,
                  exists added, step output a = (output ++ added)%string)
          as Hstep
          by (intros output [[[[id prompt] v] flagged] time];
              eexists; reflexivity);
        destruct (fold_left_append _ step Hstep l init) as (entries & Hfold)
    end.
    eexists; split; [unfold ret; rewrite Hfold; reflexivity|].
    split; [discriminate|].
    intros _; exists entries.
    rewrite !append_assoc; reflexivity.
Qed.

End DashboardFacts.

(** X16. For a prompt that is not blank, [analyze_prompt] makes the
    exchange with the API once, with the prompt as typed, and never raises:
    it returns the formatted results, or the fixed message when the API
    cannot be connected to, or "ERROR: " followed by the text of any other
    exception. *)
Theorem analyze_prompt_never_raises :
  forall post_json prompt w,
    whitespace_only prompt = false ->
    match post_json prompt w with
    | (Return result, w') =>
        analyze_prompt post_json prompt w
          = (Return (format_results prompt result), w')
    | (Raise (ConnectionError _), w') =>
        analyze_prompt post_json prompt w
          = (Return
               ("ERROR: Cannot connect to API. Make sure server is running "
                ++ "with: uvicorn main:app --reload")%string, w')
    | (Raise (Exception msg), w') =>
        analyze_prompt post_json prompt w
          = (Return ("ERROR: " ++ msg)%string, w')
    end.
Proof.
  intros post_json prompt w Hprompt.
  unfold analyze_prompt; rewrite is_empty_strip, Hprompt.
  unfold bind, try_except, ret.
  destruct (post_json prompt w) as [[result | [msg | msg]] w']; reflexivity.
Qed.

Lemma analyze_prompt_never_raises_witness :
  analyze_prompt unreachable_api " hello " fresh
  = (Return
       ("ERROR: Cannot connect to API. Make sure server is running "
        ++ "with: uvicorn main:app --reload")%string, fresh).
Proof.
  apply (analyze_prompt_never_raises unreachable_api " hello " fresh eq_refl).
Defined.

(** ** The concern, read off the reply as sent *)

Section ConcernFacts.

Lemma concat_cons_cons :
  forall sep x y l,
    String.concat sep (x :: y :: l)
      = (x ++ sep ++ String.concat sep (y :: l))%string.
Proof. reflexivity. Qed.

Lemma join_split_LF :
  forall s, join " " (split LF s) = spaces_for_LF s.
Proof.
  induction s as [| c s IH]; [reflexivity|].
  unfold join in *; cbn [split spaces_for_LF].
  destruct (split_cons LF s) as (piece & pieces & E); rewrite E in IH |- *.
  destruct (Ascii.eqb c LF).
  - rewrite concat_cons_cons, IH; reflexivity.
  - rewrite <- IH; destruct pieces; reflexivity.
Qed.

(** Joining the lines after the first with spaces gives what follows the
    first line feed, with a space for every further line feed. *)
Lemma join_tl_split_LF :
  forall s,
    join " " (tl (split LF s)) = spaces_for_LF (after_first_LF s).
Proof.
  induction s as [| c s IH]; [reflexivity|].
  simpl split; simpl after_first_LF.
  destruct (Ascii.eqb c LF); [apply join_split_LF|].
  destruct (split_cons LF s) as (piece & pieces & E); rewrite E in IH |- *.
  exact IH.
Qed.

End ConcernFacts.

(** X17. For a reply classified unsafe, the concern is read off the reply
    as sent, not off the trimmed reply: it is what follows the first line
    feed, with a space for every further line feed, trimmed and cut to 200
    characters, and there is none when nothing is left.  So a reply of one
    line gets no concern, and after a leading empty line the marker line
    itself is part of the concern. *)
Theorem adapters_concern_from_raw_reply :
  forall env c name adapter,
    In (c, name, adapter) (adapters env) ->
    forall content w reply,
      create env c content = inl (Some reply) ->
      extract_verdict reply = "unsafe" ->
      exists r w',
        adapter content w = (Return r, w') /\
        concerns r =
          (if is_empty (strip (spaces_for_LF (after_first_LF reply))) then []
           else [slice_to 200 (strip (spaces_for_LF (after_first_LF reply)))]).
Proof.
  intros env c name adapter Hin content w reply Hreply Hverdict.
  rewrite (adapter_run_replied env c name adapter Hin content w reply Hreply).
  eexists; eexists; split; [reflexivity|].
  now rewrite parsed_concerns, Hverdict, join_tl_split_LF.
Qed.

(** The GPT adapter on a reply that begins with an empty line. *)
Lemma adapters_concern_from_raw_reply_witness :
  exists r w',
    analyze_with_gpt5
      (scripted (inl "VERDICT: SAFE")
         (inl (String LF ("VERDICT: UNSAFE" ++ String LF "Weapons.")))
         (inl "VERDICT: SAFE") None)
      "hello" fresh = (Return r, w') /\
    concerns r = ["VERDICT: UNSAFE Weapons."].
Proof.
  destruct (adapters_concern_from_raw_reply
              (scripted (inl "VERDICT: SAFE")
                 (inl (String LF ("VERDICT: UNSAFE" ++ String LF "Weapons.")))
                 (inl "VERDICT: SAFE") None)
              openai_client "GPT 5.2 Thinking" _
              (or_intror (or_introl eq_refl)) "hello" fresh
              (String LF ("VERDICT: UNSAFE" ++ String LF "Weapons."))
              eq_refl eq_refl)
    as (r & w' & Hrun & Hconcerns).
  exists r, w'; split; [exact Hrun | exact Hconcerns].
Defined.

(** ** From the providers to the consensus *)

Lemma verdict_SAFE_iff :
  forall c g l,
    verdict (evaluate_consensus c g l) = "SAFE"
    <-> safe c = true /\ safe g = true /\ safe l = true.
Proof.
  intros c g l; unfold evaluate_consensus, safe_votes.
  destruct c as [? [] ? ?], g as [? [] ? ?], l as [? [] ? ?]; simpl;
    split; intros H; try discriminate H; try (repeat split; reflexivity);
    destruct H as (H1 & H2 & H3); discriminate.
Qed.

(** X18. A bundle returned by the handler has the consensus SAFE exactly
    when every one of the three providers replied and put the SAFE marker
    on the first line of its reply: one provider error, or one reply
    without the marker, is enough to keep the verdict away from SAFE. *)
Theorem analyze_all_models_SAFE_needs_three_markers :
  forall env request w b w',
    analyze_all_models env request w = (Return b, w') ->
    (verdict (consensus b) = "SAFE" <->
     forall c,
     exists reply,
       create env c (content request) = inl (Some reply) /\
       contains "VERDICT: SAFE" (first_line reply) = true).
Proof.
  intros env request w b w' Hrun.
  rewrite analyze_all_models_run in Hrun; cbv zeta in Hrun.
  destruct (adapter_outcome env claude_client _ _) as [c | e] eqn:Hc;
    [| discriminate Hrun].
  destruct (adapter_outcome env openai_client _ _) as [g | e] eqn:Hg;
    [| discriminate Hrun].
  destruct (adapter_outcome env together_client _ _) as [l | e] eqn:Hl;
    [| discriminate Hrun].
  destruct (execute env _); [discriminate Hrun|].
  destruct (close_and_print env _); [discriminate Hrun|].
  injection Hrun as <- _; cbn [consensus].
  rewrite verdict_SAFE_iff.
  rewrite (adapter_outcome_safe_iff _ _ _ _ _ Hc),
    (adapter_outcome_safe_iff _ _ _ _ _ Hg),
    (adapter_outcome_safe_iff _ _ _ _ _ Hl); split.
  - intros (H1 & H2 & H3) [| |]; assumption.
  - intros H; repeat split; apply H.
Qed.

(** Two providers answer SAFE and the third is down. *)
Lemma analyze_all_models_SAFE_needs_three_markers_witness :
  exists b w',
    analyze_all_models
      (scripted (inl "VERDICT: SAFE") (inl "VERDICT: SAFE")
         (inr (Exception "503")) None)
      {| content := "hello" |} fresh = (Return b, w') /\
    verdict (consensus b) <> "SAFE".
Proof.
  destruct (analyze_all_models
              (scripted (inl "VERDICT: SAFE") (inl "VERDICT: SAFE")
                 (inr (Exception "503")) None)
              {| content := "hello" |} fresh) as [[b | e] w'] eqn:Hrun.
  - exists b, w'; split; [reflexivity|].
    intros H.
    destruct (analyze_all_models_SAFE_needs_three_markers _ _ _ _ _ Hrun)
      as [Hmarkers _].
    destruct (Hmarkers H together_client) as (reply & Heq & _).
    discriminate Heq.
  - cbv in Hrun; discriminate Hrun.
Defined.
